(** * The copier component of the Odoo operator

    A shallow embedding of
    [pkg/controller/odooinstance/components/copier.go]: the component that
    decides, on every reconciliation pass, whether the copy job that clones
    a parent instance's database into a child instance has to be created,
    is running, has succeeded or has failed.

    The component talks to the cluster through the client embedded in its
    [ComponentContext].  The cluster is modelled as an in-memory object
    store (instances and jobs), every call on it may fail with an injected
    store error, and every effect of a pass (client calls, template
    rendering, writes to the in-memory instance, log lines) is recorded in
    order in a trace, so that statements such as "no create call is issued"
    or "the condition is written before the create call" are statements
    about that trace. *)

From Stdlib Require Import ZArith Ascii String.
From stdpp Require Import base option list strings gmap fin_maps.

Local Open Scope Z_scope.
Local Open Scope string_scope.

(** ** Strings used by the log lines *)

Definition nl : string := String "010"%char EmptyString.
Definition dquote : string := String "034"%char EmptyString.

(** ** Errors *)

(** [e.New] of the standard library's [errors] package, and the status
    errors of [k8s.io/apimachinery/pkg/api/errors], told apart by their
    reason. *)
Inductive StatusReason : Type :=
| StatusReasonNotFound
| StatusReasonAlreadyExists
| StatusReasonForbidden
| StatusReasonTimeout
| StatusReasonInternalError.

Inductive error : Type :=
| errorString (s : string)
| StatusError (reason : StatusReason) (message : string).

Module e.
Definition New (s : string) : error := errorString s.
End e.

Module errors.
Definition IsNotFound (err : error) : bool :=
  match err with
  | StatusError StatusReasonNotFound _ => true
  | _ => false
  end.

Definition IsAlreadyExists (err : error) : bool :=
  match err with
  | StatusError StatusReasonAlreadyExists _ => true
  | _ => false
  end.

Definition NewNotFound (name : string) : error :=
  StatusError StatusReasonNotFound name.

Definition NewAlreadyExists (name : string) : error :=
  StatusError StatusReasonAlreadyExists name.
End errors.

(** ** Object metadata *)

Module metav1.
Record OwnerReference : Type := {
  RefAPIVersion : string;
  RefKind : string;
  RefName : string;
  RefUID : string;
  RefController : option bool;
  RefBlockOwnerDeletion : option bool
}.

Record ObjectMeta : Type := {
  Name : string;
  Namespace : string;
  UID : string;
  Labels : gmap string string;
  OwnerReferences : list OwnerReference
}.

Definition SetOwnerReferences (refs : list OwnerReference) (m : ObjectMeta)
  : ObjectMeta :=
  {| Name := Name m; Namespace := Namespace m; UID := UID m;
     Labels := Labels m; OwnerReferences := refs |}.

Inductive DeletionPropagation : Type :=
| DeletePropagationOrphan
| DeletePropagationBackground
| DeletePropagationForeground.

(** [metav1.NewControllerRef]: a reference that marks the owner as the
    managing controller. *)
Definition NewControllerRef (owner : ObjectMeta) (apiVersion kind : string)
  : OwnerReference :=
  {| RefAPIVersion := apiVersion; RefKind := kind;
     RefName := Name owner; RefUID := UID owner;
     RefController := Some true; RefBlockOwnerDeletion := Some true |}.
End metav1.

Module types.
Record NamespacedName : Type := { Namespace : string; Name : string }.
End types.

(** ** The instance API types *)

Module instancev1beta1.
Definition OdooInstanceStatusConditionType : Type := string.
Definition OdooInstanceStatusConditionTypeCreated
  : OdooInstanceStatusConditionType := "Created".

(** Modelled from the spec: the status condition type of
    [pkg/apis/instance/v1beta1], which is not among the sources.  A
    condition has a type and records which transition wrote it; the
    "Created" condition is written by two transitions, copy job creation
    initiated and copy job succeeded. *)
Record OdooInstanceStatusCondition : Type := {
  Type_ : OdooInstanceStatusConditionType;
  Reason : string
}.

Definition ReasonCopyJobCreation : string := "CopyJobCreation".
Definition ReasonCopyJobSuccess : string := "CopyJobSuccess".

Record OdooInstanceSpec : Type := {
  Hostname : string;
  ParentHostname : option string
}.

Record OdooInstanceStatus : Type := {
  Conditions : list OdooInstanceStatusCondition
}.

Record OdooInstance : Type := {
  ObjectMeta : metav1.ObjectMeta;
  Spec : OdooInstanceSpec;
  Status : OdooInstanceStatus
}.

Definition Kind : string := "OdooInstance".
Definition APIVersion : string := "instance.odoo.io/v1beta1".

(** Modelled from the spec: [GetStatusCondition] of
    [pkg/apis/instance/v1beta1] returns the condition of the given type,
    or nil when the instance has none. *)
Definition GetStatusCondition (t : OdooInstanceStatusConditionType)
    (i : OdooInstance) : option OdooInstanceStatusCondition :=
  List.find (fun c => bool_decide (Type_ c = t)) (Conditions (Status i)).

Fixpoint upsert (c : OdooInstanceStatusCondition)
    (l : list OdooInstanceStatusCondition)
  : list OdooInstanceStatusCondition :=
  match l with
  | [] => [c]
  | c' :: l' =>
      if bool_decide (Type_ c' = Type_ c) then c :: l' else c' :: upsert c l'
  end.

(** Modelled from the spec: a condition is written over the condition of
    the same type when there is one, and added otherwise. *)
Definition SetStatusCondition (c : OdooInstanceStatusCondition)
    (i : OdooInstance) : OdooInstance :=
  {| ObjectMeta := ObjectMeta i; Spec := Spec i;
     Status := {| Conditions := upsert c (Conditions (Status i)) |} |}.

Definition CopyJobCreationCreated : OdooInstanceStatusCondition :=
  {| Type_ := OdooInstanceStatusConditionTypeCreated;
     Reason := ReasonCopyJobCreation |}.

Definition CopyJobSuccessCreated : OdooInstanceStatusCondition :=
  {| Type_ := OdooInstanceStatusConditionTypeCreated;
     Reason := ReasonCopyJobSuccess |}.

(** Modelled from the spec: marks "Created" as copy job creation
    initiated. *)
Definition SetStatusConditionCopyJobCreationCreated (i : OdooInstance)
  : OdooInstance := SetStatusCondition CopyJobCreationCreated i.

(** Modelled from the spec: marks "Created" as copy succeeded. *)
Definition SetStatusConditionCopyJobSuccessCreated (i : OdooInstance)
  : OdooInstance := SetStatusCondition CopyJobSuccessCreated i.
End instancev1beta1.

(** ** Jobs *)

Module batchv1.
(** The two counters are [int32] fields. *)
Record JobStatus : Type := { Succeeded : Z; Failed : Z }.

Record Job : Type := {
  ObjectMeta : metav1.ObjectMeta;
  Status : JobStatus
}.

Definition SetObjectMeta (m : metav1.ObjectMeta) (j : Job) : Job :=
  {| ObjectMeta := m; Status := Status j |}.
End batchv1.

(** ** Runtime objects *)

(** What a [runtime.Object] can be at run time here: the two kinds the
    component asserts on, and anything else. *)
Module runtime.
Inductive Object : Type :=
| OdooInstance (i : instancev1beta1.OdooInstance)
| Job (j : batchv1.Job)
| Other (kind : string).
End runtime.

Module reconcile.
Record Result : Type := { Requeue : bool; RequeueAfter : Z }.
Definition zero : Result := {| Requeue := false; RequeueAfter := 0 |}.
Definition requeue : Result := {| Requeue := true; RequeueAfter := 0 |}.
End reconcile.

Module client.
Record ListOptions : Type := {
  Namespace : string;
  LabelSelector : gmap string string
}.

Definition InNamespace (ns : string) : ListOptions :=
  {| Namespace := ns; LabelSelector := ∅ |}.

(** The method overwrites the selector of the options it is called on. *)
Definition MatchingLabels (lbls : gmap string string) (o : ListOptions)
  : ListOptions :=
  {| Namespace := Namespace o; LabelSelector := lbls |}.
End client.

(** ** The cluster behind the client *)

(** The object store: the instances, and the jobs by namespace and name. *)
Record Cluster : Type := {
  instances : list instancev1beta1.OdooInstance;
  jobs : gmap (string * string) batchv1.Job
}.

Definition job_key (j : batchv1.Job) : string * string :=
  (metav1.Namespace (batchv1.ObjectMeta j), metav1.Name (batchv1.ObjectMeta j)).

Definition name_key (n : types.NamespacedName) : string * string :=
  (types.Namespace n, types.Name n).

(** The calls of the client, and what can go wrong with a call besides what
    the store itself answers: a lookup never reports not-found for an
    object that is there, so not-found is not among the injected faults;
    an already-exists fault is a creation that lost a race. *)
Inductive Verb : Type := VerbList | VerbGet | VerbCreate | VerbDelete.

Inductive Fault : Type :=
| FaultAlreadyExists
| FaultForbidden
| FaultTimeout
| FaultInternalError.

Definition fault_error (f : Fault) : error :=
  match f with
  | FaultAlreadyExists => StatusError StatusReasonAlreadyExists "object already exists"
  | FaultForbidden => StatusError StatusReasonForbidden "forbidden"
  | FaultTimeout => StatusError StatusReasonTimeout "request timed out"
  | FaultInternalError => StatusError StatusReasonInternalError "internal error"
  end.

(** ** The trace of a pass *)

Inductive Severity : Type := INFO | V (level : Z) | ERROR.

Inductive Event : Type :=
| EvList (opts : client.ListOptions)
| EvGetTemplate (path : string) (extra : gmap string string)
| EvGet (key : types.NamespacedName)
| EvCreate (job : batchv1.Job)
| EvDelete (job : batchv1.Job) (policy : metav1.DeletionPropagation)
| EvSetStatusCondition (c : instancev1beta1.OdooInstanceStatusCondition)
| EvGlog (sev : Severity) (msg : string).

Definition is_create (ev : Event) : bool :=
  match ev with EvCreate _ => true | _ => false end.

Definition is_delete (ev : Event) : bool :=
  match ev with EvDelete _ _ => true | _ => false end.

Definition is_status_write (ev : Event) : bool :=
  match ev with EvSetStatusCondition _ => true | _ => false end.

(** ** The component context *)

(** [components.ComponentContext]: the object under reconciliation, the
    scheme (the kinds it has registered), the template renderer and the
    client, here the cluster with the faults of this pass and the trace. *)
Record ComponentContext : Type := {
  Top : runtime.Object;
  Scheme : list string;
  templates : string -> gmap string string -> runtime.Object + error;
  cluster : Cluster;
  faults : Verb -> option Fault;
  trace : list Event
}.

Definition with_Top (o : runtime.Object) (ctx : ComponentContext)
  : ComponentContext :=
  {| Top := o; Scheme := Scheme ctx; templates := templates ctx;
     cluster := cluster ctx; faults := faults ctx; trace := trace ctx |}.

Definition with_cluster (c : Cluster) (ctx : ComponentContext)
  : ComponentContext :=
  {| Top := Top ctx; Scheme := Scheme ctx; templates := templates ctx;
     cluster := c; faults := faults ctx; trace := trace ctx |}.

Definition with_faults (f : Verb -> option Fault) (ctx : ComponentContext)
  : ComponentContext :=
  {| Top := Top ctx; Scheme := Scheme ctx; templates := templates ctx;
     cluster := cluster ctx; faults := f; trace := trace ctx |}.

Definition with_trace (t : list Event) (ctx : ComponentContext)
  : ComponentContext :=
  {| Top := Top ctx; Scheme := Scheme ctx; templates := templates ctx;
     cluster := cluster ctx; faults := faults ctx; trace := t |}.

(** ** Computations of a pass *)

(** A call either returns, with the context it leaves, or panics. *)
Inductive Outcome (A : Type) : Type :=
| Done (a : A) (ctx : ComponentContext)
| Panic (msg : string) (ctx : ComponentContext).
Arguments Done {A} a ctx.
Arguments Panic {A} msg ctx.

Definition M (A : Type) : Type := ComponentContext -> Outcome A.

#[global] Instance M_ret : MRet M := fun A a ctx => Done a ctx.

#[global] Instance M_bind : MBind M := fun A B f m ctx =>
  match m ctx with
  | Done a ctx' => f a ctx'
  | Panic msg ctx' => Panic msg ctx'
  end.

Definition panic {A : Type} (msg : string) : M A := fun ctx => Panic msg ctx.

Definition emit (ev : Event) : M unit :=
  fun ctx => Done tt (with_trace (trace ctx ++ [ev])%list ctx).

Definition ask {A : Type} (f : ComponentContext -> A) : M A :=
  fun ctx => Done (f ctx) ctx.

Definition put_cluster (c : Cluster) : M unit :=
  fun ctx => Done tt (with_cluster c ctx).

Definition put_Top (o : runtime.Object) : M unit :=
  fun ctx => Done tt (with_Top o ctx).

(** The type assertion of [ctx.Top] to a pointer to [OdooInstance]: its
    single-value form panics when the object is of another type. *)
Definition TopOdooInstance : M instancev1beta1.OdooInstance :=
  top ← ask Top;
  match top with
  | runtime.OdooInstance i => mret i
  | _ => panic "interface conversion: runtime.Object is not *v1beta1.OdooInstance"
  end.

(** The type assertion of the rendered object to a pointer to [Job]. *)
Definition AssertJob (obj : runtime.Object) : M batchv1.Job :=
  match obj with
  | runtime.Job j => mret j
  | _ => panic "interface conversion: runtime.Object is not *v1.Job"
  end.

(** [*p] on a pointer that may be nil. *)
Definition deref {A : Type} (p : option A) : M A :=
  match p with
  | Some a => mret a
  | None => panic "invalid memory address or nil pointer dereference"
  end.

(** [s[i]] on a slice. *)
Definition index {A : Type} (s : list A) (i : nat) : M A :=
  match s !! i with
  | Some a => mret a
  | None => panic "index out of range"
  end.

(** A method with a pointer receiver called on the instance under
    reconciliation writes through to [ctx.Top]. *)
Definition update_instance
    (f : instancev1beta1.OdooInstance -> instancev1beta1.OdooInstance)
  : M unit :=
  i ← TopOdooInstance;
  put_Top (runtime.OdooInstance (f i)).

Definition SetStatusConditionCopyJobCreationCreated : M unit :=
  update_instance instancev1beta1.SetStatusConditionCopyJobCreationCreated;;
  emit (EvSetStatusCondition instancev1beta1.CopyJobCreationCreated).

Definition SetStatusConditionCopyJobSuccessCreated : M unit :=
  update_instance instancev1beta1.SetStatusConditionCopyJobSuccessCreated;;
  emit (EvSetStatusCondition instancev1beta1.CopyJobSuccessCreated).

(** ** The client *)

Module Client.
(** An instance is listed when it lives in the namespace of the options and
    carries every label of the selector. *)
Definition selected (opts : client.ListOptions)
    (i : instancev1beta1.OdooInstance) : bool :=
  bool_decide (metav1.Namespace (instancev1beta1.ObjectMeta i)
               = client.Namespace opts)
  && bool_decide (client.LabelSelector opts
                  ⊆ metav1.Labels (instancev1beta1.ObjectMeta i)).

(** What the store answers to each call, given the faults of the pass. *)
Definition listAnswer (f : Verb -> option Fault) (c : Cluster)
    (opts : client.ListOptions) : list instancev1beta1.OdooInstance + error :=
  match f VerbList with
  | Some flt => inr (fault_error flt)
  | None => inl (filter (fun i => selected opts i = true) (instances c))
  end.

Definition getAnswer (f : Verb -> option Fault) (c : Cluster)
    (key : types.NamespacedName) : batchv1.Job + error :=
  match f VerbGet with
  | Some flt => inr (fault_error flt)
  | None =>
      match jobs c !! name_key key with
      | Some j => inl j
      | None => inr (errors.NewNotFound (types.Name key))
      end
  end.

Definition createAnswer (f : Verb -> option Fault) (c : Cluster)
    (job : batchv1.Job) : option error :=
  match f VerbCreate with
  | Some flt => Some (fault_error flt)
  | None =>
      match jobs c !! job_key job with
      | Some _ =>
          Some (errors.NewAlreadyExists (metav1.Name (batchv1.ObjectMeta job)))
      | None => None
      end
  end.

Definition deleteAnswer (f : Verb -> option Fault) (c : Cluster)
    (job : batchv1.Job) : option error :=
  match f VerbDelete with
  | Some flt => Some (fault_error flt)
  | None =>
      match jobs c !! job_key job with
      | Some _ => None
      | None =>
          Some (errors.NewNotFound (metav1.Name (batchv1.ObjectMeta job)))
      end
  end.

Definition stored (job : batchv1.Job) (c : Cluster) : Cluster :=
  {| instances := instances c; jobs := <[job_key job := job]> (jobs c) |}.

Definition removed (job : batchv1.Job) (c : Cluster) : Cluster :=
  {| instances := instances c; jobs := delete (job_key job) (jobs c) |}.

(** [ctx.List]: the items, or the error of the call. *)
Definition List (opts : client.ListOptions)
  : M (list instancev1beta1.OdooInstance + error) :=
  emit (EvList opts);;
  f ← ask faults;
  c ← ask cluster;
  mret (listAnswer f c opts).

(** [ctx.Get]: the stored job, a not-found error when there is none, or the
    error of the call. *)
Definition Get (key : types.NamespacedName) : M (batchv1.Job + error) :=
  emit (EvGet key);;
  f ← ask faults;
  c ← ask cluster;
  mret (getAnswer f c key).

(** [ctx.Create]: stores the job under its namespace and name, unless a job
    is stored there already. *)
Definition Create (job : batchv1.Job) : M (option error) :=
  emit (EvCreate job);;
  f ← ask faults;
  c ← ask cluster;
  match createAnswer f c job with
  | Some err => mret (Some err)
  | None => put_cluster (stored job c);; mret None
  end.

(** [ctx.Delete]: removes the job; with background propagation the call
    does not wait for the dependents of the job. *)
Definition Delete (job : batchv1.Job) (policy : metav1.DeletionPropagation)
  : M (option error) :=
  emit (EvDelete job policy);;
  f ← ask faults;
  c ← ask cluster;
  match deleteAnswer f c job with
  | Some err => mret (Some err)
  | None => put_cluster (removed job c);; mret None
  end.
End Client.

(** [ctx.GetTemplate]: the object rendered from the template at the path
    with the extra data, or the error of the rendering. *)
Definition GetTemplate (path : string) (extra : gmap string string)
  : M (runtime.Object + error) :=
  emit (EvGetTemplate path extra);;
  t ← ask templates;
  mret (t path extra).

Module glog.
Definition Infof (msg : string) : M unit := emit (EvGlog INFO msg).
Definition VInfof (level : Z) (msg : string) : M unit :=
  emit (EvGlog (V level) msg).
Definition Errorf (msg : string) : M unit := emit (EvGlog ERROR msg).
End glog.

(** ** Owner references *)

Module controllerutil.
Definition referSameObject (a b : metav1.OwnerReference) : bool :=
  bool_decide (metav1.RefAPIVersion a = metav1.RefAPIVersion b)
  && bool_decide (metav1.RefKind a = metav1.RefKind b)
  && bool_decide (metav1.RefName a = metav1.RefName b).

(** The loop over the existing references: the index of the last reference
    to the same owner, or the first reference of another owner that is
    already the controller. *)
Fixpoint scanRefs (ref : metav1.OwnerReference)
    (existingRefs : list metav1.OwnerReference) (i : nat) (fi : option nat)
  : option nat + metav1.OwnerReference :=
  match existingRefs with
  | [] => inl fi
  | r :: rs =>
      if referSameObject ref r then scanRefs ref rs (S i) (Some i)
      else if bool_decide (metav1.RefController r = Some true) then inr r
      else scanRefs ref rs (S i) fi
  end.

(** [controllerutil.SetControllerReference] with an instance as the owner:
    it fails when the scheme does not know the kind of the owner or when
    the object is controlled by another owner already; otherwise the
    object's reference to the owner is written, in place when there is
    one. *)
Definition SetControllerReference (owner : instancev1beta1.OdooInstance)
    (object : batchv1.Job) (scheme : list string) : batchv1.Job + error :=
  if bool_decide (instancev1beta1.Kind ∈ scheme) then
    let ref := metav1.NewControllerRef (instancev1beta1.ObjectMeta owner)
                 instancev1beta1.APIVersion instancev1beta1.Kind in
    let existingRefs := metav1.OwnerReferences (batchv1.ObjectMeta object) in
    match scanRefs ref existingRefs 0 None with
    | inr r =>
        inr (errorString ("Object " ++ metav1.Name (batchv1.ObjectMeta object)
                          ++ " is already owned by another "
                          ++ metav1.RefKind r ++ " controller "
                          ++ metav1.RefName r))
    | inl fi =>
        let refs := match fi with
                    | None => (existingRefs ++ [ref])%list
                    | Some i => <[i := ref]> existingRefs
                    end in
        inl (batchv1.SetObjectMeta
               (metav1.SetOwnerReferences refs (batchv1.ObjectMeta object))
               object)
    end
  else
    inr (errorString "no kind is registered for the type v1beta1.OdooInstance").
End controllerutil.

(** ** The copier component *)

Record copierComponent : Type := { templatePath : string }.

Definition NewCopier (templatePath : string) : copierComponent :=
  {| templatePath := templatePath |}.

(** The zero value of [batchv1.Job]. *)
Definition emptyJob : batchv1.Job :=
  {| batchv1.ObjectMeta :=
       {| metav1.Name := EmptyString; metav1.Namespace := EmptyString;
          metav1.UID := EmptyString; metav1.Labels := ∅;
          metav1.OwnerReferences := [] |};
     batchv1.Status := {| batchv1.Succeeded := 0; batchv1.Failed := 0 |} |}.

Definition WatchTypes (_ : copierComponent) : list runtime.Object :=
  [runtime.Job emptyJob].

Definition IsReconcilable (_ : copierComponent) : M bool :=
  instance ← TopOdooInstance;
  match instancev1beta1.ParentHostname (instancev1beta1.Spec instance) with
  | None =>
      (* The initializer component is the one that initializes a root instance *)
      mret false
  | Some _ =>
      match instancev1beta1.GetStatusCondition
              instancev1beta1.OdooInstanceStatusConditionTypeCreated instance with
      | Some _ =>
          (* The instance is already created (or creating) *)
          mret false
      | None => mret true
      end
  end.

(** The prefix of every log line of the component. *)
Definition logPrefix (instance : instancev1beta1.OdooInstance) : string :=
  "[" ++ metav1.Namespace (instancev1beta1.ObjectMeta instance) ++ "/"
      ++ metav1.Name (instancev1beta1.ObjectMeta instance) ++ "] copier: ".

Definition jobPath (job : batchv1.Job) : string :=
  metav1.Namespace (batchv1.ObjectMeta job) ++ "/"
  ++ metav1.Name (batchv1.ObjectMeta job).

Definition msgNoParent (instance : instancev1beta1.OdooInstance)
    (parentHostname : string) : string :=
  logPrefix instance ++ "Did not find parent OdooInstance with hostname "
  ++ parentHostname ++ nl.

Definition msgCreating (instance : instancev1beta1.OdooInstance)
    (job : batchv1.Job) : string :=
  logPrefix instance ++ "Creating copier Job " ++ jobPath job ++ nl.

Definition msgSucceeded (instance : instancev1beta1.OdooInstance) : string :=
  logPrefix instance
  ++ "Copier Job succeeded, setting OdooInstanceStatusCondition "
  ++ dquote ++ "Created" ++ dquote ++ " to 'true'" ++ nl.

Definition msgDeleting (instance : instancev1beta1.OdooInstance)
    (existing : batchv1.Job) : string :=
  logPrefix instance ++ "Deleting copier Job " ++ jobPath existing ++ nl.

Definition msgFailed (instance : instancev1beta1.OdooInstance)
    (existing : batchv1.Job) : string :=
  logPrefix instance ++ "Copier Job failed, leaving job " ++ jobPath existing
  ++ " for debugging purposes" ++ nl.

(** The end of [Reconcile], reached when the job exists and, if it had
    succeeded, has been deleted: a failed job is reported and left. *)
Definition reportFailed (instance : instancev1beta1.OdooInstance)
    (existing : batchv1.Job) : M (reconcile.Result * option error) :=
  (if (0 <? batchv1.Failed (batchv1.Status existing))%Z
   then glog.Errorf (msgFailed instance existing)
   else mret tt);;
  (* Job is still running, will get reconciled when it finishes. *)
  mret (reconcile.zero, None).

Definition Reconcile (comp : copierComponent)
  : M (reconcile.Result * option error) :=
  instance ← TopOdooInstance;
  let meta := instancev1beta1.ObjectMeta instance in
  let listoptions := client.InNamespace (metav1.Namespace meta) in
  let clusterName :=
    default EmptyString (metav1.Labels meta !! "cluster.odoo.io/name") in
  parentHostname ←
    deref (instancev1beta1.ParentHostname (instancev1beta1.Spec instance));
  let listoptions :=
    client.MatchingLabels
      (<["cluster.odoo.io/name" := clusterName]>
         (<["instance.odoo.io/hostname" := parentHostname]> ∅))
      listoptions in
  r ← Client.List listoptions;
  match r with
  | inr err => mret (reconcile.zero, Some err)
  | inl Items =>
  if (1 <? length Items)%nat then
    mret (reconcile.zero, Some (e.New "more than one parent instance found"))
  else if (length Items <? 1)%nat then
    glog.Infof (msgNoParent instance parentHostname);;
    mret (reconcile.requeue, Some (e.New "No parent instance found"))
  else
  parent ← index Items 0;
  let extra : gmap string string :=
    <["FromDatabase" := instancev1beta1.Hostname (instancev1beta1.Spec parent)]> ∅ in
  r ← GetTemplate (templatePath comp) extra;
  match r with
  | inr err => mret (reconcile.zero, Some err)
  | inl obj =>
  job ← AssertJob obj;
  r ← Client.Get {| types.Name := metav1.Name (batchv1.ObjectMeta job);
                    types.Namespace := metav1.Namespace (batchv1.ObjectMeta job) |};
  match r with
  | inr err =>
      if errors.IsNotFound err then
        glog.Infof (msgCreating instance job);;
        SetStatusConditionCopyJobCreationCreated;;
        (* Launching the job *)
        scheme ← ask Scheme;
        match controllerutil.SetControllerReference instance job scheme with
        | inr err => mret (reconcile.zero, Some err)
        | inl job =>
            err ← Client.Create job;
            match err with
            | Some err =>
                (* If this fails, someone else might have started a copier
                   job between the Get and here, so just try again. *)
                mret (reconcile.requeue, Some err)
            | None =>
                (* Job is started, so we're done for now. *)
                mret (reconcile.zero, None)
            end
        end
      else
        (* Some other real error, bail. *)
        mret (reconcile.zero, Some err)
  | inl existing =>
      (* The job previously started at some point and might be done. *)
      if (0 <? batchv1.Succeeded (batchv1.Status existing))%Z then
        glog.Infof (msgSucceeded instance);;
        SetStatusConditionCopyJobSuccessCreated;;
        glog.VInfof 2 (msgDeleting instance existing);;
        err ← Client.Delete existing metav1.DeletePropagationBackground;
        match err with
        | Some err => mret (reconcile.requeue, Some err)
        | None => reportFailed instance existing
        end
      else reportFailed instance existing
  end
  end
  end.

(** ** Vocabulary of the statements *)

(** The two errors [Reconcile] makes itself. *)
Definition ParentNotFound : error := e.New "No parent instance found".
Definition ConflictingParent : error :=
  e.New "more than one parent instance found".

(** The list options of the parent lookup, the data handed to the template
    and the name under which the job is looked up, as [Reconcile] builds
    them. *)
Definition parentOptions (instance : instancev1beta1.OdooInstance)
    (parentHostname : string) : client.ListOptions :=
  client.MatchingLabels
    (<["cluster.odoo.io/name" :=
         default EmptyString
           (metav1.Labels (instancev1beta1.ObjectMeta instance)
              !! "cluster.odoo.io/name")]>
       (<["instance.odoo.io/hostname" := parentHostname]> ∅))
    (client.InNamespace
       (metav1.Namespace (instancev1beta1.ObjectMeta instance))).

Definition extraFor (parent : instancev1beta1.OdooInstance)
  : gmap string string :=
  <["FromDatabase" := instancev1beta1.Hostname (instancev1beta1.Spec parent)]> ∅.

Definition jobName (job : batchv1.Job) : types.NamespacedName :=
  {| types.Name := metav1.Name (batchv1.ObjectMeta job);
     types.Namespace := metav1.Namespace (batchv1.ObjectMeta job) |}.

(** The parents the lookup of a pass finds, when the call goes through. *)
Definition parentsFound (ctx : ComponentContext)
    (instance : instancev1beta1.OdooInstance) (parentHostname : string)
  : list instancev1beta1.OdooInstance + error :=
  Client.listAnswer (faults ctx) (cluster ctx)
    (parentOptions instance parentHostname).

(** The job the lookup of a pass finds, or its error. *)
Definition jobFound (ctx : ComponentContext) (job : batchv1.Job)
  : batchv1.Job + error :=
  Client.getAnswer (faults ctx) (cluster ctx) (jobName job).

(** The three events every pass that reaches the job lookup starts with. *)
Definition lookupEvents (comp : copierComponent)
    (instance : instancev1beta1.OdooInstance) (parentHostname : string)
    (parent : instancev1beta1.OdooInstance) (job : batchv1.Job)
  : list Event :=
  [EvList (parentOptions instance parentHostname);
   EvGetTemplate (templatePath comp) (extraFor parent);
   EvGet (jobName job)].

(** How many events of a kind a list of events holds. *)
Definition count (p : Event -> bool) (evs : list Event) : nat :=
  length (List.filter p evs).

(** The instance has a condition of the type. *)
Definition ConditionSet (t : instancev1beta1.OdooInstanceStatusConditionType)
    (i : instancev1beta1.OdooInstance) : Prop :=
  exists c, In c (instancev1beta1.Conditions (instancev1beta1.Status i))
            /\ instancev1beta1.Type_ c = t.

(** The context an outcome leaves. *)
Definition context_of {A : Type} (o : Outcome A) : ComponentContext :=
  match o with Done _ ctx => ctx | Panic _ ctx => ctx end.

(** The object under reconciliation is an instance with a parent hostname. *)
Definition hasParent (ctx : ComponentContext) : bool :=
  match Top ctx with
  | runtime.OdooInstance i =>
      match instancev1beta1.ParentHostname (instancev1beta1.Spec i) with
      | Some _ => true
      | None => false
      end
  | _ => false
  end.

(** The pass gets as far as the job lookup: the object under reconciliation
    is an instance with a parent hostname, the parent lookup finds exactly
    one parent, and the template renders a job. *)
Definition reachesLookup (comp : copierComponent) (ctx : ComponentContext)
    (instance : instancev1beta1.OdooInstance) (parentHostname : string)
    (parent : instancev1beta1.OdooInstance) (job : batchv1.Job) : Prop :=
  Top ctx = runtime.OdooInstance instance
  /\ instancev1beta1.ParentHostname (instancev1beta1.Spec instance)
     = Some parentHostname
  /\ parentsFound ctx instance parentHostname = inl [parent]
  /\ templates ctx (templatePath comp) (extraFor parent) = inl (runtime.Job job).

(** What a pass adds to the trace when it starts the job, when it finds the
    job succeeded, and when it looks at the failure count. *)
Definition creationEvents (instance : instancev1beta1.OdooInstance)
    (job : batchv1.Job) : list Event :=
  [EvGlog INFO (msgCreating instance job);
   EvSetStatusCondition instancev1beta1.CopyJobCreationCreated].

Definition successEvents (instance : instancev1beta1.OdooInstance)
    (existing : batchv1.Job) : list Event :=
  [EvGlog INFO (msgSucceeded instance);
   EvSetStatusCondition instancev1beta1.CopyJobSuccessCreated;
   EvGlog (V 2) (msgDeleting instance existing);
   EvDelete existing metav1.DeletePropagationBackground].

Definition failedEvents (instance : instancev1beta1.OdooInstance)
    (existing : batchv1.Job) : list Event :=
  if (0 <? batchv1.Failed (batchv1.Status existing))%Z
  then [EvGlog ERROR (msgFailed instance existing)]
  else [].

(** The context of a pass after it has added events to the trace, written
    the instance under reconciliation and changed the store. *)
Definition after (ctx : ComponentContext) (evs : list Event)
    (instance : instancev1beta1.OdooInstance) (c : Cluster)
  : ComponentContext :=
  with_cluster c
    (with_Top (runtime.OdooInstance instance)
       (with_trace (trace ctx ++ evs)%list ctx)).

(** ** A concrete scenario

    Instance [child-1] in namespace [ns] with parent hostname [root-1]; the
    store holds the one matching parent [root-1]; the template renders the
    job [copier-child-1]. *)

Module Scenario.
Definition mkMeta (name uid : string) (labels : gmap string string)
  : metav1.ObjectMeta :=
  {| metav1.Name := name; metav1.Namespace := "ns"; metav1.UID := uid;
     metav1.Labels := labels; metav1.OwnerReferences := [] |}.

Definition labelsOf (hostname : string) : gmap string string :=
  <["cluster.odoo.io/name" := "cluster-1"]>
    (<["instance.odoo.io/hostname" := hostname]> ∅).

Definition root : instancev1beta1.OdooInstance :=
  {| instancev1beta1.ObjectMeta := mkMeta "root-1" "uid-root-1" (labelsOf "root-1");
     instancev1beta1.Spec := {| instancev1beta1.Hostname := "root-1";
                                instancev1beta1.ParentHostname := None |};
     instancev1beta1.Status := {| instancev1beta1.Conditions := [] |} |}.

Definition child : instancev1beta1.OdooInstance :=
  {| instancev1beta1.ObjectMeta := mkMeta "child-1" "uid-child-1" (labelsOf "child-1");
     instancev1beta1.Spec := {| instancev1beta1.Hostname := "child-1";
                                instancev1beta1.ParentHostname := Some "root-1" |};
     instancev1beta1.Status := {| instancev1beta1.Conditions := [] |} |}.

(** A second instance that carries the labels of the parent. *)
Definition twin : instancev1beta1.OdooInstance :=
  {| instancev1beta1.ObjectMeta := mkMeta "root-1-bis" "uid-root-1-bis" (labelsOf "root-1");
     instancev1beta1.Spec := {| instancev1beta1.Hostname := "root-1";
                                instancev1beta1.ParentHostname := None |};
     instancev1beta1.Status := {| instancev1beta1.Conditions := [] |} |}.

Definition copierJob (refs : list metav1.OwnerReference) (succeeded failed : Z)
  : batchv1.Job :=
  {| batchv1.ObjectMeta :=
       {| metav1.Name := "copier-child-1"; metav1.Namespace := "ns";
          metav1.UID := "uid-job"; metav1.Labels := ∅;
          metav1.OwnerReferences := refs |};
     batchv1.Status := {| batchv1.Succeeded := succeeded;
                          batchv1.Failed := failed |} |}.

(** A reference that makes some other object the controller of the job. *)
Definition foreignRef : metav1.OwnerReference :=
  {| metav1.RefAPIVersion := "batch/v1beta1"; metav1.RefKind := "CronJob";
     metav1.RefName := "nightly"; metav1.RefUID := "uid-cron";
     metav1.RefController := Some true;
     metav1.RefBlockOwnerDeletion := None |}.

Definition render (refs : list metav1.OwnerReference)
    (path : string) (extra : gmap string string) : runtime.Object + error :=
  if bool_decide (path = "copier/job.yml.tpl")
  then inl (runtime.Job (copierJob refs 0 0))
  else inr (errorString ("template not found: " ++ path)).

Definition noFaults : Verb -> option Fault := fun _ => None.

Definition failing (v : Verb) (f : Fault) : Verb -> option Fault :=
  fun v' => match v, v' with
            | VerbList, VerbList | VerbGet, VerbGet
            | VerbCreate, VerbCreate | VerbDelete, VerbDelete => Some f
            | _, _ => None
            end.

Definition comp : copierComponent := NewCopier "copier/job.yml.tpl".

Definition context (top : runtime.Object)
    (stored : list instancev1beta1.OdooInstance)
    (existing : list batchv1.Job) (refs : list metav1.OwnerReference)
    (f : Verb -> option Fault) : ComponentContext :=
  {| Top := top; Scheme := ["OdooInstance"; "Job"]; templates := render refs;
     cluster := {| instances := stored;
                   jobs := list_to_map (map (fun j => (job_key j, j)) existing) |};
     faults := f; trace := [] |}.

Definition child_top : runtime.Object := runtime.OdooInstance child.

(** The parent is there and the job is not. *)
Definition fresh : ComponentContext :=
  context child_top [root; child] [] [] noFaults.

(** The parent is not there yet. *)
Definition orphan : ComponentContext :=
  context child_top [child] [] [] noFaults.

(** Two instances carry the labels of the parent. *)
Definition ambiguous : ComponentContext :=
  context child_top [root; twin; child] [] [] noFaults.

(** The template renders a job that another object controls already. *)
Definition preowned : ComponentContext :=
  context child_top [root; child] [] [foreignRef] noFaults.

(** The scheme does not know the kind of the instance. *)
Definition unregistered : ComponentContext :=
  {| Top := child_top; Scheme := ["Job"]; templates := render [];
     cluster := {| instances := [root; child]; jobs := ∅ |};
     faults := noFaults; trace := [] |}.

(** The create call loses a race. *)
Definition raced : ComponentContext :=
  context child_top [root; child] [] [] (failing VerbCreate FaultAlreadyExists).

(** The job is there, with the given counters. *)
Definition running (succeeded failed : Z) : ComponentContext :=
  context child_top [root; child] [copierJob [] succeeded failed] [] noFaults.

(** The object under reconciliation is the root instance. *)
Definition rooted : ComponentContext :=
  context (runtime.OdooInstance root) [root; child] [] [] noFaults.

(** The job as the pass hands it to the create call. *)
Definition ownedJob : batchv1.Job :=
  copierJob [metav1.NewControllerRef (instancev1beta1.ObjectMeta child)
               instancev1beta1.APIVersion instancev1beta1.Kind] 0 0.

(** The context the first pass of the scenario leaves. *)
Definition created : ComponentContext :=
  context_of (Reconcile comp fresh).
End Scenario.

(** ** The events and the result of a whole pass *)

(** The events a pass adds to the trace, whether it returns or panics. *)
Definition passEvents (comp : copierComponent) (ctx : ComponentContext)
  : list Event :=
  drop (length (trace ctx)) (trace (context_of (Reconcile comp ctx))).

(** What a call returned, if it returned. *)
Definition result_of {A : Type} (o : Outcome A) : option A :=
  match o with Done a _ => Some a | Panic _ _ => None end.

Definition is_list (ev : Event) : bool :=
  match ev with EvList _ => true | _ => false end.

Definition is_template (ev : Event) : bool :=
  match ev with EvGetTemplate _ _ => true | _ => false end.

Definition is_get (ev : Event) : bool :=
  match ev with EvGet _ => true | _ => false end.

(** The instance with other status conditions. *)
Definition withConditions
    (conds : list instancev1beta1.OdooInstanceStatusCondition)
    (i : instancev1beta1.OdooInstance) : instancev1beta1.OdooInstance :=
  {| instancev1beta1.ObjectMeta := instancev1beta1.ObjectMeta i;
     instancev1beta1.Spec := instancev1beta1.Spec i;
     instancev1beta1.Status := {| instancev1beta1.Conditions := conds |} |}.

(** ** More passes of the scenario *)

Module Cases.
(** The parent lookup times out. *)
Definition listTimeout : ComponentContext :=
  Scenario.context Scenario.child_top [Scenario.root; Scenario.child] [] []
    (Scenario.failing VerbList FaultTimeout).

(** The job lookup is forbidden. *)
Definition getForbidden : ComponentContext :=
  Scenario.context Scenario.child_top [Scenario.root; Scenario.child] [] []
    (Scenario.failing VerbGet FaultForbidden).

(** A component whose template does not exist. *)
Definition lost : copierComponent := NewCopier "copier/missing.yml.tpl".

(** The template renders an object that is not a job. *)
Definition misrendered : ComponentContext :=
  {| Top := Scenario.child_top; Scheme := ["OdooInstance"; "Job"];
     templates := fun _ _ => inl (runtime.Other "ConfigMap");
     cluster := {| instances := [Scenario.root; Scenario.child]; jobs := ∅ |};
     faults := Scenario.noFaults; trace := [] |}.

(** The object under reconciliation is a job. *)
Definition jobOnTop : ComponentContext :=
  Scenario.context (runtime.Job (Scenario.copierJob [] 0 0))
    [Scenario.root; Scenario.child] [] [] Scenario.noFaults.
End Cases.

(** ** Proof support *)

Ltac run :=
  cbv [Reconcile IsReconcilable reportFailed mbind M_bind mret M_ret
       TopOdooInstance AssertJob deref panic emit ask put_cluster put_Top
       update_instance SetStatusConditionCopyJobCreationCreated
       SetStatusConditionCopyJobSuccessCreated
       Client.List Client.Get Client.Create Client.Delete GetTemplate
       glog.Infof glog.VInfof glog.Errorf
       Top Scheme templates cluster faults trace
       with_trace with_Top with_cluster with_faults context_of hasParent
       parentsFound jobFound parentOptions extraFor jobName lookupEvents] in *.

Ltac flat := rewrite <- ?app_assoc; cbn [app].

(** Case analysis on the innermost scrutinee the goal is stuck on. *)
Ltac branch :=
  match goal with
  | |- context [match ?x with _ => _ end] =>
      lazymatch x with
      | context [match _ with _ => _ end] => fail
      | _ => destruct x eqn:?
      end
  end.

Ltac branches := repeat (branch; cbv beta iota).

Lemma index_head {A : Type} (a : A) (l : list A) : index (a :: l) 0 = mret a.
Proof. reflexivity. Qed.

Lemma fault_not_NotFound (flt : Fault) :
  errors.IsNotFound (fault_error flt) = false.
Proof. destruct flt; reflexivity. Qed.

Lemma GetStatusCondition_None t i :
  instancev1beta1.GetStatusCondition t i = None <-> ~ ConditionSet t i.
Proof.
  unfold instancev1beta1.GetStatusCondition, ConditionSet. split.
  - intros Hnone [c [Hin Ht]].
    pose proof (find_none _ _ Hnone c Hin) as Hc. simpl in Hc.
    apply bool_decide_eq_false in Hc. contradiction.
  - intros Hno.
    destruct (find _ _) as [c|] eqn:Hfind; [|reflexivity].
    apply find_some in Hfind as [Hin Hc].
    apply bool_decide_eq_true in Hc. exfalso. apply Hno. eauto.
Qed.

Lemma GetStatusCondition_Some t i c :
  instancev1beta1.GetStatusCondition t i = Some c -> ConditionSet t i.
Proof.
  unfold instancev1beta1.GetStatusCondition, ConditionSet. intros Hfind.
  apply find_some in Hfind as [Hin Hc].
  apply bool_decide_eq_true in Hc. eauto.
Qed.

Lemma upsert_find c l :
  find (fun c' => bool_decide (instancev1beta1.Type_ c' = instancev1beta1.Type_ c))
       (instancev1beta1.upsert c l) = Some c.
Proof.
  induction l as [|c' l IH]; simpl.
  - rewrite bool_decide_eq_true_2; reflexivity.
  - destruct (bool_decide (instancev1beta1.Type_ c' = instancev1beta1.Type_ c)) eqn:Hc; simpl.
    + rewrite bool_decide_eq_true_2; reflexivity.
    + rewrite Hc. exact IH.
Qed.

Lemma GetStatusCondition_Set c i :
  instancev1beta1.GetStatusCondition (instancev1beta1.Type_ c)
    (instancev1beta1.SetStatusCondition c i) = Some c.
Proof. apply upsert_find. Qed.

(** ** The eligibility check *)

(** C3. [IsReconcilable] changes nothing and returns true exactly when the
    instance has a parent hostname and its "Created" condition is not set:
    false without a parent hostname, false when "Created" is set whatever
    the parent hostname, true otherwise. *)
Theorem IsReconcilable_iff (comp : copierComponent) (ctx : ComponentContext)
    (instance : instancev1beta1.OdooInstance) :
  Top ctx = runtime.OdooInstance instance ->
  exists b : bool,
    IsReconcilable comp ctx = Done b ctx
    /\ (b = true <->
        is_Some (instancev1beta1.ParentHostname (instancev1beta1.Spec instance))
        /\ ~ ConditionSet instancev1beta1.OdooInstanceStatusConditionTypeCreated
               instance)
    /\ (instancev1beta1.ParentHostname (instancev1beta1.Spec instance) = None
        -> b = false)
    /\ (ConditionSet instancev1beta1.OdooInstanceStatusConditionTypeCreated
          instance -> b = false).
Proof.
  intros HT. destruct ctx as [top sch tpl cl f tr]. run. subst top.
  pose proof (GetStatusCondition_None
                instancev1beta1.OdooInstanceStatusConditionTypeCreated instance)
    as Hcond.
  destruct (instancev1beta1.ParentHostname (instancev1beta1.Spec instance))
    as [h|] eqn:HP.
  - destruct (instancev1beta1.GetStatusCondition _ instance) as [c|] eqn:HC.
    + exists false. split; [reflexivity|].
      assert (Hset : ConditionSet
                instancev1beta1.OdooInstanceStatusConditionTypeCreated instance).
      { eapply GetStatusCondition_Some; exact HC. }
      repeat split; try discriminate; try tauto.
    + exists true. apply proj1 in Hcond. specialize (Hcond eq_refl).
      repeat split; eauto; try discriminate; try contradiction.
  - exists false. repeat split; try discriminate.
    intros [[h Hh] _]. discriminate.
Qed.

(** ** The paths of a pass *)

Lemma Reconcile_job_not_found comp ctx instance parentHostname parent job err :
  reachesLookup comp ctx instance parentHostname parent job ->
  jobFound ctx job = inr err ->
  errors.IsNotFound err = true ->
  Reconcile comp ctx =
    let marked :=
      instancev1beta1.SetStatusConditionCopyJobCreationCreated instance in
    let evs := (lookupEvents comp instance parentHostname parent job
                ++ creationEvents instance job)%list in
    match controllerutil.SetControllerReference instance job (Scheme ctx) with
    | inr err' => Done (reconcile.zero, Some err') (after ctx evs marked (cluster ctx))
    | inl owned =>
        match Client.createAnswer (faults ctx) (cluster ctx) owned with
        | Some err' =>
            Done (reconcile.requeue, Some err')
              (after ctx (evs ++ [EvCreate owned]) marked (cluster ctx))
        | None =>
            Done (reconcile.zero, None)
              (after ctx (evs ++ [EvCreate owned]) marked
                 (Client.stored owned (cluster ctx)))
        end
    end.
Proof.
  intros (HT & HP & HL & HR) HG HN.
  destruct ctx as [top sch tpl cl f tr]. unfold after, creationEvents. run.
  subst top. rewrite HP, HL. cbv [length Nat.ltb Nat.leb].
  rewrite index_head. run. rewrite HR, HG, HN.
  destruct (controllerutil.SetControllerReference instance job sch) as [owned|err'].
  - destruct (Client.createAnswer f cl owned) as [err'|]; flat; reflexivity.
  - flat; reflexivity.
Qed.

Lemma Reconcile_job_found comp ctx instance parentHostname parent job existing :
  reachesLookup comp ctx instance parentHostname parent job ->
  jobFound ctx job = inl existing ->
  Reconcile comp ctx =
    let marked :=
      instancev1beta1.SetStatusConditionCopyJobSuccessCreated instance in
    let evs := lookupEvents comp instance parentHostname parent job in
    if (0 <? batchv1.Succeeded (batchv1.Status existing))%Z then
      match Client.deleteAnswer (faults ctx) (cluster ctx) existing with
      | Some err =>
          Done (reconcile.requeue, Some err)
            (after ctx (evs ++ successEvents instance existing) marked
               (cluster ctx))
      | None =>
          Done (reconcile.zero, None)
            (after ctx (evs ++ successEvents instance existing
                            ++ failedEvents instance existing) marked
               (Client.removed existing (cluster ctx)))
      end
    else
      Done (reconcile.zero, None)
        (with_trace (trace ctx ++ evs ++ failedEvents instance existing) ctx).
Proof.
  intros (HT & HP & HL & HR) HG.
  destruct ctx as [top sch tpl cl f tr].
  unfold after, successEvents, failedEvents. run.
  subst top. rewrite HP, HL. cbv [length Nat.ltb Nat.leb].
  rewrite index_head. run. rewrite HR, HG.
  destruct (0 <? batchv1.Succeeded (batchv1.Status existing))%Z.
  - destruct (Client.deleteAnswer f cl existing) as [err|]; [flat; reflexivity|].
    destruct (0 <? batchv1.Failed (batchv1.Status existing))%Z; flat; reflexivity.
  - destruct (0 <? batchv1.Failed (batchv1.Status existing))%Z; flat; reflexivity.
Qed.

(** ** Owner references *)

Lemma scanRefs_bound ref refs i fi k :
  controllerutil.scanRefs ref refs i fi = inl (Some k) ->
  fi = Some k \/ (i <= k < i + length refs)%nat.
Proof.
  revert i fi. induction refs as [|r rs IH]; intros i fi H; simpl in H.
  - left. congruence.
  - destruct (controllerutil.referSameObject ref r).
    + apply IH in H as [H|H]; right; simpl; [inversion H; lia | lia].
    + destruct (bool_decide _); [discriminate|].
      apply IH in H as [H|H]; [left; exact H | right; simpl; lia].
Qed.

(** After [SetControllerReference] the object carries the controller
    reference to the owner, and keeps its name, namespace and status. *)
Lemma SetControllerReference_owned owner object scheme owned :
  controllerutil.SetControllerReference owner object scheme = inl owned ->
  In (metav1.NewControllerRef (instancev1beta1.ObjectMeta owner)
        instancev1beta1.APIVersion instancev1beta1.Kind)
     (metav1.OwnerReferences (batchv1.ObjectMeta owned))
  /\ job_key owned = job_key object
  /\ batchv1.Status owned = batchv1.Status object.
Proof.
  unfold controllerutil.SetControllerReference.
  destruct (bool_decide _); [|discriminate].
  destruct (controllerutil.scanRefs _ _ _ _) as [[k|]|r] eqn:Hscan;
    intros H; inversion H; subst; clear H; simpl.
  - split; [|split; reflexivity].
    apply scanRefs_bound in Hscan as [Hscan|Hscan]; [discriminate|].
    apply list_elem_of_In. eapply list_elem_of_lookup_2.
    apply list_lookup_insert_eq. lia.
  - split; [|split; reflexivity]. apply in_or_app. right. left. reflexivity.
Qed.

(** ** The parent lookup *)

(** C5. With zero matching parents the pass returns a requeue request
    together with the parent-not-found error; it only lists and logs: no
    create call, no delete call, and the context is otherwise unchanged. *)
Theorem Reconcile_parent_not_found (comp : copierComponent)
    (ctx : ComponentContext) (instance : instancev1beta1.OdooInstance)
    (parentHostname : string) :
  Top ctx = runtime.OdooInstance instance ->
  instancev1beta1.ParentHostname (instancev1beta1.Spec instance)
    = Some parentHostname ->
  parentsFound ctx instance parentHostname = inl [] ->
  let evs := [EvList (parentOptions instance parentHostname);
              EvGlog INFO (msgNoParent instance parentHostname)] in
  Reconcile comp ctx
    = Done (reconcile.requeue, Some ParentNotFound)
        (with_trace (trace ctx ++ evs) ctx)
  /\ reconcile.Requeue reconcile.requeue = true
  /\ count is_create evs = 0%nat
  /\ count is_delete evs = 0%nat.
Proof.
  intros HT HP HL evs. repeat split.
  destruct ctx as [top sch tpl cl f tr]. subst evs. run. subst top.
  rewrite HP, HL. cbv [length Nat.ltb Nat.leb]. flat. reflexivity.
Qed.

(** C6. With two or more matching parents the pass returns the
    conflicting-parent error and no requeue request; it only lists: no
    create call, no delete call, and the context is otherwise unchanged. *)
Theorem Reconcile_conflicting_parents (comp : copierComponent)
    (ctx : ComponentContext) (instance : instancev1beta1.OdooInstance)
    (parentHostname : string) (Items : list instancev1beta1.OdooInstance) :
  Top ctx = runtime.OdooInstance instance ->
  instancev1beta1.ParentHostname (instancev1beta1.Spec instance)
    = Some parentHostname ->
  parentsFound ctx instance parentHostname = inl Items ->
  (2 <= length Items)%nat ->
  let evs := [EvList (parentOptions instance parentHostname)] in
  Reconcile comp ctx
    = Done (reconcile.zero, Some ConflictingParent)
        (with_trace (trace ctx ++ evs) ctx)
  /\ reconcile.Requeue reconcile.zero = false
  /\ count is_create evs = 0%nat
  /\ count is_delete evs = 0%nat.
Proof.
  intros HT HP HL Hlen evs. repeat split.
  destruct ctx as [top sch tpl cl f tr]. subst evs. run. subst top.
  rewrite HP, HL.
  destruct Items as [|p1 [|p2 Items]]; simpl in Hlen; try lia.
  reflexivity.
Qed.

(** ** Starting the job *)

(** C1, with the proviso that the owner reference can be set.  With
    exactly one matching parent, a lookup that reports not-found and an
    owner reference that can be set, the pass marks "Created" as initiated
    before it issues the create call, hands the create call the job with
    the controller reference to the instance, issues exactly one create
    call, and, when that call succeeds, stores the job and returns no error
    and no requeue request. *)
Theorem Reconcile_creates_job (comp : copierComponent) (ctx : ComponentContext)
    (instance : instancev1beta1.OdooInstance) (parentHostname : string)
    (parent : instancev1beta1.OdooInstance) (job : batchv1.Job) (err : error)
    (owned : batchv1.Job) :
  reachesLookup comp ctx instance parentHostname parent job ->
  jobFound ctx job = inr err ->
  errors.IsNotFound err = true ->
  controllerutil.SetControllerReference instance job (Scheme ctx) = inl owned ->
  let marked :=
    instancev1beta1.SetStatusConditionCopyJobCreationCreated instance in
  let evs := (lookupEvents comp instance parentHostname parent job
              ++ [EvGlog INFO (msgCreating instance job);
                  EvSetStatusCondition instancev1beta1.CopyJobCreationCreated;
                  EvCreate owned])%list in
  exists r ctx',
    Reconcile comp ctx = Done r ctx'
    /\ trace ctx' = (trace ctx ++ evs)%list
    /\ count is_create evs = 1%nat
    /\ Top ctx' = runtime.OdooInstance marked
    /\ instancev1beta1.GetStatusCondition
         instancev1beta1.OdooInstanceStatusConditionTypeCreated marked
       = Some instancev1beta1.CopyJobCreationCreated
    /\ In (metav1.NewControllerRef (instancev1beta1.ObjectMeta instance)
             instancev1beta1.APIVersion instancev1beta1.Kind)
          (metav1.OwnerReferences (batchv1.ObjectMeta owned))
    /\ (Client.createAnswer (faults ctx) (cluster ctx) owned = None ->
        r = (reconcile.zero, None)
        /\ cluster ctx' = Client.stored owned (cluster ctx)
        /\ jobs (cluster ctx') !! job_key owned = Some owned).
Proof.
  intros Hreach HG HN HS marked evs.
  rewrite (Reconcile_job_not_found _ _ _ _ _ _ _ Hreach HG HN). cbv zeta.
  rewrite HS.
  pose proof (SetControllerReference_owned _ _ _ _ HS) as (Hin & _ & _).
  assert (Hcond : instancev1beta1.GetStatusCondition
                    instancev1beta1.OdooInstanceStatusConditionTypeCreated marked
                  = Some instancev1beta1.CopyJobCreationCreated)
    by apply (GetStatusCondition_Set instancev1beta1.CopyJobCreationCreated).
  assert (Hcount : count is_create evs = 1%nat) by reflexivity.
  destruct (Client.createAnswer (faults ctx) (cluster ctx) owned) as [err'|].
  - eexists _, _. split; [reflexivity|].
    split; [destruct ctx; unfold after, creationEvents; run; flat; reflexivity|].
    split; [exact Hcount|]. split; [destruct ctx; reflexivity|].
    split; [exact Hcond|]. split; [exact Hin|]. discriminate.
  - eexists _, _. split; [reflexivity|].
    split; [destruct ctx; unfold after, creationEvents; run; flat; reflexivity|].
    split; [exact Hcount|]. split; [destruct ctx; reflexivity|].
    split; [exact Hcond|]. split; [exact Hin|]. intros _.
    split; [reflexivity|]. split; [destruct ctx; reflexivity|].
    destruct ctx as [top sch tpl cl f tr]. unfold after, Client.stored. run.
    cbv [jobs]. apply lookup_insert_eq.
Qed.

(** C4. When the create call issued after the not-found lookup fails,
    whatever the error, an already-exists error of a lost race included,
    the pass returns a requeue request, with the error of the call, and
    leaves the store as it was. *)
Theorem Reconcile_create_failure_requeues (comp : copierComponent)
    (ctx : ComponentContext) (instance : instancev1beta1.OdooInstance)
    (parentHostname : string) (parent : instancev1beta1.OdooInstance)
    (job : batchv1.Job) (err : error) (owned : batchv1.Job) (err' : error) :
  reachesLookup comp ctx instance parentHostname parent job ->
  jobFound ctx job = inr err ->
  errors.IsNotFound err = true ->
  controllerutil.SetControllerReference instance job (Scheme ctx) = inl owned ->
  Client.createAnswer (faults ctx) (cluster ctx) owned = Some err' ->
  exists r ctx',
    Reconcile comp ctx = Done r ctx'
    /\ r = (reconcile.requeue, Some err')
    /\ reconcile.Requeue (fst r) = true
    /\ cluster ctx' = cluster ctx.
Proof.
  intros Hreach HG HN HS HC.
  rewrite (Reconcile_job_not_found _ _ _ _ _ _ _ Hreach HG HN). cbv zeta.
  rewrite HS, HC. eexists _, _. split; [reflexivity|].
  repeat split.
Qed.

(** ** The job exists *)

(** C2. When the lookup finds a job whose success count is positive, the
    pass marks "Created" as succeeded and then issues one delete call for
    that job with background propagation; when the delete call fails the
    pass returns a requeue request with the error of the call, and
    otherwise the job is gone from the store and the pass returns no
    error and no requeue request. *)
Theorem Reconcile_job_succeeded (comp : copierComponent)
    (ctx : ComponentContext) (instance : instancev1beta1.OdooInstance)
    (parentHostname : string) (parent : instancev1beta1.OdooInstance)
    (job existing : batchv1.Job) :
  reachesLookup comp ctx instance parentHostname parent job ->
  jobFound ctx job = inl existing ->
  (0 < batchv1.Succeeded (batchv1.Status existing))%Z ->
  let marked :=
    instancev1beta1.SetStatusConditionCopyJobSuccessCreated instance in
  exists r ctx' tail,
    let evs := (lookupEvents comp instance parentHostname parent job
                ++ [EvGlog INFO (msgSucceeded instance);
                    EvSetStatusCondition instancev1beta1.CopyJobSuccessCreated;
                    EvGlog (V 2) (msgDeleting instance existing);
                    EvDelete existing metav1.DeletePropagationBackground]
                ++ tail)%list in
    Reconcile comp ctx = Done r ctx'
    /\ trace ctx' = (trace ctx ++ evs)%list
    /\ count is_delete evs = 1%nat
    /\ count is_create evs = 0%nat
    /\ Top ctx' = runtime.OdooInstance marked
    /\ instancev1beta1.GetStatusCondition
         instancev1beta1.OdooInstanceStatusConditionTypeCreated marked
       = Some instancev1beta1.CopyJobSuccessCreated
    /\ match Client.deleteAnswer (faults ctx) (cluster ctx) existing with
       | Some err =>
           r = (reconcile.requeue, Some err) /\ cluster ctx' = cluster ctx
       | None =>
           r = (reconcile.zero, None)
           /\ cluster ctx' = Client.removed existing (cluster ctx)
       end.
Proof.
  intros Hreach HG Hs marked.
  rewrite (Reconcile_job_found _ _ _ _ _ _ _ Hreach HG). cbv zeta.
  apply Z.ltb_lt in Hs. rewrite Hs.
  assert (Hcond : instancev1beta1.GetStatusCondition
                    instancev1beta1.OdooInstanceStatusConditionTypeCreated marked
                  = Some instancev1beta1.CopyJobSuccessCreated)
    by apply (GetStatusCondition_Set instancev1beta1.CopyJobSuccessCreated).
  destruct (Client.deleteAnswer (faults ctx) (cluster ctx) existing) as [err|].
  - eexists _, _, []. split; [reflexivity|].
    split; [destruct ctx; unfold after, successEvents; run; flat; reflexivity|].
    repeat split; try exact Hcond; destruct ctx; reflexivity.
  - eexists _, _, (failedEvents instance existing). split; [reflexivity|].
    split; [destruct ctx; unfold after, successEvents; run; flat; reflexivity|].
    unfold failedEvents.
    destruct (0 <? batchv1.Failed (batchv1.Status existing))%Z;
      repeat split; try exact Hcond; destruct ctx; reflexivity.
Qed.

(** C7. When the lookup finds a job whose failure count is positive and
    whose success count is zero, the pass only looks up and logs: no
    create call, no delete call, no write to the status conditions, the
    instance and the store are left as they were, and the pass returns no
    error and no requeue request. *)
Theorem Reconcile_job_failed (comp : copierComponent) (ctx : ComponentContext)
    (instance : instancev1beta1.OdooInstance) (parentHostname : string)
    (parent : instancev1beta1.OdooInstance) (job existing : batchv1.Job) :
  reachesLookup comp ctx instance parentHostname parent job ->
  jobFound ctx job = inl existing ->
  (0 < batchv1.Failed (batchv1.Status existing))%Z ->
  batchv1.Succeeded (batchv1.Status existing) = 0%Z ->
  let evs := (lookupEvents comp instance parentHostname parent job
              ++ [EvGlog ERROR (msgFailed instance existing)])%list in
  Reconcile comp ctx
    = Done (reconcile.zero, None) (with_trace (trace ctx ++ evs) ctx)
  /\ reconcile.Requeue reconcile.zero = false
  /\ count is_create evs = 0%nat
  /\ count is_delete evs = 0%nat
  /\ count is_status_write evs = 0%nat.
Proof.
  intros Hreach HG Hf Hs evs. repeat split.
  rewrite (Reconcile_job_found _ _ _ _ _ _ _ Hreach HG). cbv zeta.
  rewrite Hs. unfold failedEvents. apply Z.ltb_lt in Hf. rewrite Hf.
  reflexivity.
Qed.

(** C10. When the job found has both a positive success count and a
    positive failure count, the success path is taken all the same:
    "Created" is marked as succeeded and the delete call is issued; once
    the job is deleted the failure count adds one error log line and
    nothing else, and when the delete call fails the pass returns before
    looking at the failure count. *)
Theorem Reconcile_success_precedes_failure (comp : copierComponent)
    (ctx : ComponentContext) (instance : instancev1beta1.OdooInstance)
    (parentHostname : string) (parent : instancev1beta1.OdooInstance)
    (job existing : batchv1.Job) :
  reachesLookup comp ctx instance parentHostname parent job ->
  jobFound ctx job = inl existing ->
  (0 < batchv1.Succeeded (batchv1.Status existing))%Z ->
  (0 < batchv1.Failed (batchv1.Status existing))%Z ->
  let marked :=
    instancev1beta1.SetStatusConditionCopyJobSuccessCreated instance in
  let evs := (lookupEvents comp instance parentHostname parent job
              ++ [EvGlog INFO (msgSucceeded instance);
                  EvSetStatusCondition instancev1beta1.CopyJobSuccessCreated;
                  EvGlog (V 2) (msgDeleting instance existing);
                  EvDelete existing metav1.DeletePropagationBackground])%list in
  Reconcile comp ctx =
    match Client.deleteAnswer (faults ctx) (cluster ctx) existing with
    | Some err =>
        Done (reconcile.requeue, Some err) (after ctx evs marked (cluster ctx))
    | None =>
        Done (reconcile.zero, None)
          (after ctx (evs ++ [EvGlog ERROR (msgFailed instance existing)])
             marked (Client.removed existing (cluster ctx)))
    end.
Proof.
  intros Hreach HG Hs Hf marked evs.
  rewrite (Reconcile_job_found _ _ _ _ _ _ _ Hreach HG). cbv zeta.
  apply Z.ltb_lt in Hs, Hf. rewrite Hs. unfold failedEvents. rewrite Hf.
  subst evs. unfold successEvents.
  destruct (Client.deleteAnswer _ _ _); unfold after; flat; reflexivity.
Qed.

(** ** The passes that stop early *)

Lemma Reconcile_list_error comp ctx instance parentHostname err :
  Top ctx = runtime.OdooInstance instance ->
  instancev1beta1.ParentHostname (instancev1beta1.Spec instance)
    = Some parentHostname ->
  parentsFound ctx instance parentHostname = inr err ->
  Reconcile comp ctx
    = Done (reconcile.zero, Some err)
        (with_trace (trace ctx ++ [EvList (parentOptions instance parentHostname)])
           ctx).
Proof.
  intros HT HP HL. destruct ctx as [top sch tpl cl f tr]. run. subst top.
  rewrite HP, HL. reflexivity.
Qed.

Lemma Reconcile_lookup_error comp ctx instance parentHostname parent job err :
  reachesLookup comp ctx instance parentHostname parent job ->
  jobFound ctx job = inr err ->
  errors.IsNotFound err = false ->
  Reconcile comp ctx
    = Done (reconcile.zero, Some err)
        (with_trace
           (trace ctx ++ lookupEvents comp instance parentHostname parent job)
           ctx).
Proof.
  intros (HT & HP & HL & HR) HG HN.
  destruct ctx as [top sch tpl cl f tr]. run.
  subst top. rewrite HP, HL. cbv [length Nat.ltb Nat.leb].
  rewrite index_head. run. rewrite HR, HG, HN. flat. reflexivity.
Qed.

(** ** The precondition of a pass *)

(** C9. [Reconcile] asserts that the object under reconciliation is an
    instance and dereferences the parent hostname before anything else:
    without an instance with a parent hostname it panics, having changed
    nothing and issued no call, so a pass that returns had such an
    instance; a true answer of [IsReconcilable] establishes that
    precondition; and it is the only one [Reconcile] has: with it the
    pass goes on to the parent lookup whatever the status conditions are. *)
Theorem Reconcile_requires_parent (comp : copierComponent)
    (ctx : ComponentContext) :
  (hasParent ctx = false -> exists msg, Reconcile comp ctx = Panic msg ctx)
  /\ (forall r ctx', Reconcile comp ctx = Done r ctx' -> hasParent ctx = true)
  /\ (forall ctx', IsReconcilable comp ctx = Done true ctx' ->
      hasParent ctx = true)
  /\ (forall instance parentHostname,
      Top ctx = runtime.OdooInstance instance ->
      instancev1beta1.ParentHostname (instancev1beta1.Spec instance)
        = Some parentHostname ->
      exists evs,
        trace (context_of (Reconcile comp ctx))
        = (trace ctx
           ++ EvList (parentOptions instance parentHostname) :: evs)%list).
Proof.
  assert (Hpanic : hasParent ctx = false ->
                   exists msg, Reconcile comp ctx = Panic msg ctx).
  { destruct ctx as [top sch tpl cl f tr]. run. intros H.
    destruct top as [i|j|k]; [|eexists; reflexivity..].
    destruct (instancev1beta1.ParentHostname (instancev1beta1.Spec i));
      [discriminate|]. eexists; reflexivity. }
  split; [exact Hpanic|]. split; [|split].
  - intros r ctx' Hdone. destruct (hasParent ctx); [reflexivity|].
    destruct (Hpanic eq_refl) as [msg Hmsg]. congruence.
  - clear Hpanic. intros ctx'. destruct ctx as [top sch tpl cl f tr]. run.
    destruct top as [i|j|k]; try discriminate.
    destruct (instancev1beta1.ParentHostname (instancev1beta1.Spec i));
      [reflexivity|]. discriminate.
  - clear Hpanic. intros instance h HT HP.
    destruct ctx as [top sch tpl cl f tr]. run. subst top. rewrite HP.
    destruct (Client.listAnswer f cl _) as [[|p [|q Items]]|err];
      cbv [length Nat.ltb Nat.leb]; try rewrite index_head; run;
      branches; flat; eexists; reflexivity.
Qed.

(** ** Redelivery *)

(** A pass that issues a create call took the path of a lookup that
    reports not-found, with an owner reference that could be set. *)
Lemma Reconcile_create_inv comp ctx r ctx' evs :
  Reconcile comp ctx = Done r ctx' ->
  trace ctx' = (trace ctx ++ evs)%list ->
  (1 <= count is_create evs)%nat ->
  exists instance parentHostname parent job err owned,
    reachesLookup comp ctx instance parentHostname parent job
    /\ jobFound ctx job = inr err
    /\ errors.IsNotFound err = true
    /\ controllerutil.SetControllerReference instance job (Scheme ctx)
       = inl owned.
Proof.
  intros Hrun Htr Hc. revert Hrun. unfold reachesLookup.
  destruct ctx as [top sch tpl cl f tr]. run.
  destruct top as [instance|j|k]; [|discriminate..].
  destruct (instancev1beta1.ParentHostname (instancev1beta1.Spec instance))
    as [h|] eqn:HP; [|discriminate].
  destruct (Client.listAnswer f cl _) as [[|p [|q Items]]|err] eqn:HL;
    cbv [length Nat.ltb Nat.leb]; try rewrite index_head; run; branches;
    intros Hrun; inversion Hrun; subst; clear Hrun;
    cbv [trace] in Htr; rewrite <- ?app_assoc in Htr;
    apply app_inv_head in Htr; subst evs;
    try (cbv [count List.filter is_create length app] in Hc; lia).
  all: eexists instance, h, p, _, _, _; repeat split; eassumption.
Qed.

Lemma jobName_of_key (a b : batchv1.Job) :
  job_key a = job_key b -> jobName a = jobName b.
Proof. unfold job_key, jobName. intros H. inversion H. congruence. Qed.

Lemma count_app p (l1 l2 : list Event) :
  count p (l1 ++ l2) = (count p l1 + count p l2)%nat.
Proof. unfold count. rewrite List.filter_app. apply length_app. Qed.

Lemma failedEvents_quiet instance existing :
  count is_create (failedEvents instance existing) = 0%nat
  /\ forall key, ~ In (EvGet key) (failedEvents instance existing).
Proof.
  unfold failedEvents.
  destruct (0 <? batchv1.Failed (batchv1.Status existing))%Z; split;
    try reflexivity; intros key; simpl; intros H;
    repeat destruct H as [H|H]; try discriminate; exact H.
Qed.

(** The pass after a pass that stored the job [owned] for the rendered job
    [job]: whatever goes wrong with the calls of this pass, it issues no
    create call, and its lookup does not report not-found. *)
Lemma Reconcile_after_create comp ctx instance parentHostname parent job owned
    evs f2 :
  reachesLookup comp ctx instance parentHostname parent job ->
  job_key owned = job_key job ->
  let ctx' :=
    after ctx evs
      (instancev1beta1.SetStatusConditionCopyJobCreationCreated instance)
      (Client.stored owned (cluster ctx)) in
  exists r2 ctx'' evs2,
    Reconcile comp (with_faults f2 ctx') = Done r2 ctx''
    /\ trace ctx'' = (trace ctx' ++ evs2)%list
    /\ count is_create evs2 = 0%nat
    /\ (forall key e, In (EvGet key) evs2 ->
        Client.getAnswer f2 (cluster ctx') key = inr e ->
        errors.IsNotFound e = false)
    /\ (f2 VerbList = None -> In (EvGet (jobName owned)) evs2)
    /\ (f2 VerbGet = None ->
        Client.getAnswer f2 (cluster ctx') (jobName owned) = inl owned).
Proof.
  intros (HT & HP & HL & HR) Hkey ctx'.
  pose proof (jobName_of_key _ _ Hkey) as Hname.
  set (marked :=
         instancev1beta1.SetStatusConditionCopyJobCreationCreated instance)
    in *.
  assert (Hstored : jobs (cluster ctx') !! name_key (jobName owned) = Some owned).
  { destruct ctx; apply lookup_insert_eq. }
  assert (Hget : f2 VerbGet = None ->
                 Client.getAnswer f2 (cluster ctx') (jobName owned) = inl owned).
  { intros Hf. unfold Client.getAnswer. rewrite Hf, Hstored. reflexivity. }
  assert (Hnot : forall e, Client.getAnswer f2 (cluster ctx') (jobName owned)
                           = inr e -> errors.IsNotFound e = false).
  { intros e. unfold Client.getAnswer. rewrite Hstored.
    destruct (f2 VerbGet); intros He; inversion He.
    apply fault_not_NotFound. }
  destruct (f2 VerbList) as [flt|] eqn:Hlist.
  - (* the parent lookup fails *)
    assert (Herr : parentsFound (with_faults f2 ctx') marked parentHostname
                   = inr (fault_error flt)).
    { destruct ctx. unfold parentsFound, Client.listAnswer. simpl.
      rewrite Hlist. reflexivity. }
    eexists _, _, _. split.
    { eapply (Reconcile_list_error comp _ marked parentHostname);
        [destruct ctx; reflexivity | exact HP | exact Herr]. }
    split; [destruct ctx; reflexivity|]. split; [reflexivity|].
    split; [|split; [discriminate | exact Hget]].
    intros key e [H|[]]. discriminate.
  - (* the parent lookup finds the parent again *)
    assert (Hreach : reachesLookup comp (with_faults f2 ctx') marked
                       parentHostname parent job).
    { destruct ctx as [top sch tpl cl f tr].
      unfold reachesLookup, parentsFound, Client.listAnswer in *. simpl in *.
      rewrite Hlist. destruct (f VerbList); [discriminate|].
      repeat split; assumption. }
    assert (Hev : forall key,
               In (EvGet key)
                  (lookupEvents comp marked parentHostname parent job) ->
               key = jobName owned).
    { intros key [H|[H|[H|[]]]]; inversion H. symmetry. exact Hname. }
    assert (Hin : In (EvGet (jobName owned))
                     (lookupEvents comp marked parentHostname parent job)).
    { rewrite Hname. right. right. left. reflexivity. }
    destruct (jobFound (with_faults f2 ctx') job) as [existing|e] eqn:Hfound.
    + (* the lookup finds the job *)
      pose proof (failedEvents_quiet marked existing) as [Hq1 Hq2].
      rewrite (Reconcile_job_found _ _ _ _ _ _ _ Hreach Hfound). cbv zeta.
      destruct (0 <? batchv1.Succeeded (batchv1.Status existing))%Z;
        [destruct (Client.deleteAnswer _ _ existing)|];
        eexists _, _, _; (split; [reflexivity|]);
        (split; [destruct ctx; reflexivity|]);
        rewrite ?count_app, ?Hq1; (split; [reflexivity|]);
        (split; [|split; [intros _; apply in_or_app; left; exact Hin
                         | exact Hget]]);
        intros key e1 Hk; apply in_app_or in Hk as [Hk|Hk];
        try (apply Hev in Hk; subst key; apply Hnot);
        try (apply in_app_or in Hk as [Hk|Hk]);
        try (exfalso; exact (Hq2 _ Hk));
        simpl in Hk; repeat destruct Hk as [Hk|Hk]; try discriminate;
        contradiction.
    + (* the lookup fails, and not with not-found *)
      assert (He : errors.IsNotFound e = false).
      { apply Hnot. rewrite Hname. destruct ctx; exact Hfound. }
      rewrite (Reconcile_lookup_error _ _ _ _ _ _ _ Hreach Hfound He).
      eexists _, _, _. split; [reflexivity|].
      split; [destruct ctx; reflexivity|]. split; [reflexivity|].
      split; [|split; [intros _; exact Hin | exact Hget]].
      intros key e' Hk. apply Hev in Hk. subst key. apply Hnot.
Qed.

(** C8. After a pass that created the job (it returned no error and no
    requeue request and issued a create call), the job is in the store,
    and a second pass on the state the first one left, whatever goes wrong
    with its own calls, issues no create call; its lookup of the job does
    not report not-found, and finds the job when the call goes through. *)
Theorem Reconcile_idempotent (comp : copierComponent)
    (ctx ctx' : ComponentContext) (evs : list Event) :
  Reconcile comp ctx = Done (reconcile.zero, None) ctx' ->
  trace ctx' = (trace ctx ++ evs)%list ->
  count is_create evs = 1%nat ->
  exists owned,
    In (EvCreate owned) evs
    /\ jobs (cluster ctx') !! job_key owned = Some owned
    /\ forall f2, exists r2 ctx'' evs2,
         Reconcile comp (with_faults f2 ctx') = Done r2 ctx''
         /\ trace ctx'' = (trace ctx' ++ evs2)%list
         /\ count is_create evs2 = 0%nat
         /\ (forall key e, In (EvGet key) evs2 ->
             Client.getAnswer f2 (cluster ctx') key = inr e ->
             errors.IsNotFound e = false)
         /\ (f2 VerbList = None -> In (EvGet (jobName owned)) evs2)
         /\ (f2 VerbGet = None ->
             Client.getAnswer f2 (cluster ctx') (jobName owned) = inl owned).
Proof.
  intros Hrun Htr Hc.
  destruct (Reconcile_create_inv comp ctx _ ctx' evs Hrun Htr)
    as (instance & h & parent & job & err & owned & Hreach & HG & HN & HS);
    [lia|].
  pose proof (SetControllerReference_owned _ _ _ _ HS) as (_ & Hkey & _).
  rewrite (Reconcile_job_not_found _ _ _ _ _ _ _ Hreach HG HN) in Hrun.
  cbv zeta in Hrun. rewrite HS in Hrun.
  destruct (Client.createAnswer (faults ctx) (cluster ctx) owned);
    [discriminate|].
  inversion Hrun as [Hctx']. clear Hrun. exists owned.
  assert (Hevs : evs = (lookupEvents comp instance h parent job
                        ++ creationEvents instance job ++ [EvCreate owned])%list).
  { rewrite <- Hctx' in Htr. destruct ctx. unfold after in Htr. run.
    apply app_inv_head in Htr. rewrite <- Htr. unfold creationEvents.
    flat. reflexivity. }
  split; [rewrite Hevs; apply in_or_app; right; apply in_or_app; right;
          left; reflexivity|].
  split; [destruct ctx; apply lookup_insert_eq|].
  intros f2. exact (Reconcile_after_create comp ctx instance h parent job owned
                      _ f2 Hreach Hkey).
Qed.

(** ** The scenario, pass by pass *)

Lemma reaches_fresh :
  reachesLookup Scenario.comp Scenario.fresh Scenario.child "root-1"
    Scenario.root (Scenario.copierJob [] 0 0).
Proof. repeat split; vm_compute; reflexivity. Qed.

Lemma reaches_raced :
  reachesLookup Scenario.comp Scenario.raced Scenario.child "root-1"
    Scenario.root (Scenario.copierJob [] 0 0).
Proof. repeat split; vm_compute; reflexivity. Qed.

Lemma reaches_running succeeded failed :
  reachesLookup Scenario.comp (Scenario.running succeeded failed)
    Scenario.child "root-1" Scenario.root (Scenario.copierJob [] 0 0).
Proof. repeat split; vm_compute; reflexivity. Qed.

Lemma IsReconcilable_iff_witness :
  Top Scenario.fresh = runtime.OdooInstance Scenario.child
  /\ exists b : bool,
       IsReconcilable Scenario.comp Scenario.fresh = Done b Scenario.fresh
       /\ (b = true <->
           is_Some (instancev1beta1.ParentHostname
                      (instancev1beta1.Spec Scenario.child))
           /\ ~ ConditionSet
                  instancev1beta1.OdooInstanceStatusConditionTypeCreated
                  Scenario.child)
       /\ (instancev1beta1.ParentHostname
             (instancev1beta1.Spec Scenario.child) = None -> b = false)
       /\ (ConditionSet instancev1beta1.OdooInstanceStatusConditionTypeCreated
             Scenario.child -> b = false).
Proof.
  split; [reflexivity|].
  apply (IsReconcilable_iff Scenario.comp Scenario.fresh Scenario.child).
  reflexivity.
Defined.

Lemma Reconcile_parent_not_found_witness :
  parentsFound Scenario.orphan Scenario.child "root-1" = inl []
  /\ exists ctx',
       Reconcile Scenario.comp Scenario.orphan
       = Done (reconcile.requeue, Some ParentNotFound) ctx'
       /\ cluster ctx' = cluster Scenario.orphan.
Proof.
  split; [vm_compute; reflexivity|].
  destruct (Reconcile_parent_not_found Scenario.comp Scenario.orphan
              Scenario.child "root-1") as (Hrun & _);
    [reflexivity | reflexivity | vm_compute; reflexivity |].
  eexists. split; [exact Hrun | reflexivity].
Defined.

Lemma Reconcile_conflicting_parents_witness :
  parentsFound Scenario.ambiguous Scenario.child "root-1"
  = inl [Scenario.root; Scenario.twin]
  /\ exists ctx',
       Reconcile Scenario.comp Scenario.ambiguous
       = Done (reconcile.zero, Some ConflictingParent) ctx'
       /\ cluster ctx' = cluster Scenario.ambiguous.
Proof.
  split; [vm_compute; reflexivity|].
  destruct (Reconcile_conflicting_parents Scenario.comp Scenario.ambiguous
              Scenario.child "root-1" [Scenario.root; Scenario.twin])
    as (Hrun & _);
    [reflexivity | reflexivity | vm_compute; reflexivity | simpl; lia |].
  eexists. split; [exact Hrun | reflexivity].
Defined.

Lemma Reconcile_creates_job_witness :
  controllerutil.SetControllerReference Scenario.child
    (Scenario.copierJob [] 0 0) (Scheme Scenario.fresh)
  = inl Scenario.ownedJob
  /\ exists r ctx',
       Reconcile Scenario.comp Scenario.fresh = Done r ctx'
       /\ r = (reconcile.zero, None)
       /\ jobs (cluster ctx') !! job_key Scenario.ownedJob
          = Some Scenario.ownedJob.
Proof.
  split; [vm_compute; reflexivity|].
  destruct (Reconcile_creates_job Scenario.comp Scenario.fresh Scenario.child
              "root-1" Scenario.root (Scenario.copierJob [] 0 0)
              (errors.NewNotFound "copier-child-1") Scenario.ownedJob)
    as (r & ctx' & Hrun & _ & _ & _ & _ & _ & Hok);
    [exact reaches_fresh | vm_compute; reflexivity | reflexivity
     | vm_compute; reflexivity |].
  destruct Hok as (Hr & _ & Hjob); [vm_compute; reflexivity|].
  exists r, ctx'. split; [exact Hrun|]. split; [exact Hr | exact Hjob].
Defined.

(** C1, as stated, fails where the owner reference cannot be set.  The
    template renders a job that another object controls already, there is
    exactly one matching parent, the lookup reports not-found, and the pass
    returns the error of setting the owner reference without issuing a
    create call or storing a job; the same happens with a scheme that does
    not know the kind of the instance. *)
Lemma Reconcile_creates_job_counterexample :
  (reachesLookup Scenario.comp Scenario.preowned Scenario.child "root-1"
     Scenario.root (Scenario.copierJob [Scenario.foreignRef] 0 0)
   /\ (exists err,
         jobFound Scenario.preowned
           (Scenario.copierJob [Scenario.foreignRef] 0 0) = inr err
         /\ errors.IsNotFound err = true)
   /\ exists err ctx',
        Reconcile Scenario.comp Scenario.preowned
        = Done (reconcile.zero, Some err) ctx'
        /\ count is_create (trace ctx') = 0%nat
        /\ jobs (cluster ctx') = ∅)
  /\ (reachesLookup Scenario.comp Scenario.unregistered Scenario.child "root-1"
        Scenario.root (Scenario.copierJob [] 0 0)
      /\ (exists err,
            jobFound Scenario.unregistered (Scenario.copierJob [] 0 0) = inr err
            /\ errors.IsNotFound err = true)
      /\ exists err ctx',
           Reconcile Scenario.comp Scenario.unregistered
           = Done (reconcile.zero, Some err) ctx'
           /\ count is_create (trace ctx') = 0%nat
           /\ jobs (cluster ctx') = ∅).
Proof.
  split.
  - split; [repeat split; vm_compute; reflexivity|].
    split; [eexists; split; vm_compute; reflexivity|].
    eexists _, _. split; [vm_compute; reflexivity|].
    split; vm_compute; reflexivity.
  - split; [repeat split; vm_compute; reflexivity|].
    split; [eexists; split; vm_compute; reflexivity|].
    eexists _, _. split; [vm_compute; reflexivity|].
    split; vm_compute; reflexivity.
Qed.

Lemma Reconcile_create_failure_requeues_witness :
  Client.createAnswer (faults Scenario.raced) (cluster Scenario.raced)
    Scenario.ownedJob
  = Some (fault_error FaultAlreadyExists)
  /\ errors.IsAlreadyExists (fault_error FaultAlreadyExists) = true
  /\ exists r ctx',
       Reconcile Scenario.comp Scenario.raced = Done r ctx'
       /\ r = (reconcile.requeue, Some (fault_error FaultAlreadyExists))
       /\ reconcile.Requeue (fst r) = true
       /\ cluster ctx' = cluster Scenario.raced.
Proof.
  split; [vm_compute; reflexivity|]. split; [reflexivity|].
  apply (Reconcile_create_failure_requeues Scenario.comp Scenario.raced
           Scenario.child "root-1" Scenario.root (Scenario.copierJob [] 0 0)
           (errors.NewNotFound "copier-child-1") Scenario.ownedJob
           (fault_error FaultAlreadyExists));
    [exact reaches_raced | vm_compute; reflexivity | reflexivity
     | vm_compute; reflexivity | vm_compute; reflexivity].
Defined.

Lemma Reconcile_job_succeeded_witness :
  jobFound (Scenario.running 1 0) (Scenario.copierJob [] 0 0)
  = inl (Scenario.copierJob [] 1 0)
  /\ exists r ctx',
       Reconcile Scenario.comp (Scenario.running 1 0) = Done r ctx'
       /\ r = (reconcile.zero, None)
       /\ cluster ctx'
          = Client.removed (Scenario.copierJob [] 1 0)
              (cluster (Scenario.running 1 0)).
Proof.
  split; [vm_compute; reflexivity|].
  destruct (Reconcile_job_succeeded Scenario.comp (Scenario.running 1 0)
              Scenario.child "root-1" Scenario.root (Scenario.copierJob [] 0 0)
              (Scenario.copierJob [] 1 0))
    as (r & ctx' & tail & Hrun & _ & _ & _ & _ & _ & Hdel);
    [exact (reaches_running 1 0) | vm_compute; reflexivity | simpl; lia |].
  exists r, ctx'. split; [exact Hrun | exact Hdel].
Defined.

Lemma Reconcile_job_failed_witness :
  jobFound (Scenario.running 0 1) (Scenario.copierJob [] 0 0)
  = inl (Scenario.copierJob [] 0 1)
  /\ exists evs,
       Reconcile Scenario.comp (Scenario.running 0 1)
       = Done (reconcile.zero, None)
           (with_trace (trace (Scenario.running 0 1) ++ evs)
              (Scenario.running 0 1))
       /\ count is_create evs = 0%nat
       /\ count is_delete evs = 0%nat
       /\ count is_status_write evs = 0%nat.
Proof.
  split; [vm_compute; reflexivity|].
  destruct (Reconcile_job_failed Scenario.comp (Scenario.running 0 1)
              Scenario.child "root-1" Scenario.root (Scenario.copierJob [] 0 0)
              (Scenario.copierJob [] 0 1))
    as (Hrun & _ & Hc & Hd & Hs);
    [exact (reaches_running 0 1) | vm_compute; reflexivity | simpl; lia
     | reflexivity |].
  eexists. split; [exact Hrun|]. split; [exact Hc|]. split; [exact Hd | exact Hs].
Defined.

Lemma Reconcile_success_precedes_failure_witness :
  jobFound (Scenario.running 1 1) (Scenario.copierJob [] 0 0)
  = inl (Scenario.copierJob [] 1 1)
  /\ exists ctx',
       Reconcile Scenario.comp (Scenario.running 1 1)
       = Done (reconcile.zero, None) ctx'
       /\ jobs (cluster ctx') = ∅
       /\ List.last (trace ctx') (EvGlog INFO EmptyString)
          = EvGlog ERROR
              (msgFailed Scenario.child (Scenario.copierJob [] 1 1)).
Proof.
  split; [vm_compute; reflexivity|].
  eexists. split.
  - rewrite (Reconcile_success_precedes_failure Scenario.comp
               (Scenario.running 1 1) Scenario.child "root-1" Scenario.root
               (Scenario.copierJob [] 0 0) (Scenario.copierJob [] 1 1));
      [reflexivity | exact (reaches_running 1 1) | vm_compute; reflexivity
       | simpl; lia | simpl; lia].
  - split; vm_compute; reflexivity.
Defined.

Lemma Reconcile_requires_parent_witness :
  hasParent Scenario.rooted = false
  /\ exists msg,
       Reconcile Scenario.comp Scenario.rooted = Panic msg Scenario.rooted.
Proof.
  split; [reflexivity|].
  apply (proj1 (Reconcile_requires_parent Scenario.comp Scenario.rooted)).
  reflexivity.
Defined.

Lemma Reconcile_idempotent_witness :
  Reconcile Scenario.comp Scenario.fresh = Done (reconcile.zero, None) Scenario.created
  /\ count is_create (trace Scenario.created) = 1%nat
  /\ exists r2 ctx'',
       Reconcile Scenario.comp (with_faults Scenario.noFaults Scenario.created)
       = Done r2 ctx''
       /\ count is_create (trace ctx'') = 1%nat.
Proof.
  split; [vm_compute; reflexivity|]. split; [vm_compute; reflexivity|].
  destruct (Reconcile_idempotent Scenario.comp Scenario.fresh
              Scenario.created (trace Scenario.created))
    as (owned & _ & _ & Hsecond);
    [vm_compute; reflexivity | reflexivity | vm_compute; reflexivity |].
  destruct (Hsecond Scenario.noFaults)
    as (r2 & ctx'' & evs2 & Hrun & Htr & Hc & _).
  exists r2, ctx''. split; [exact Hrun|].
  rewrite Htr, count_app, Hc. vm_compute. reflexivity.
Defined.

(** ** The passes the errors cut short *)

(** X1. When the parent lookup fails, the pass returns the error of the call
    as it is, with no requeue request, after the list call alone: no
    template is rendered, no job is looked up, and nothing else changes. *)
Theorem Reconcile_list_failure (comp : copierComponent) (ctx : ComponentContext)
    (instance : instancev1beta1.OdooInstance) (parentHostname : string)
    (err : error) :
  Top ctx = runtime.OdooInstance instance ->
  instancev1beta1.ParentHostname (instancev1beta1.Spec instance)
    = Some parentHostname ->
  parentsFound ctx instance parentHostname = inr err ->
  Reconcile comp ctx
    = Done (reconcile.zero, Some err)
        (with_trace
           (trace ctx ++ [EvList (parentOptions instance parentHostname)]) ctx)
  /\ passEvents comp ctx = [EvList (parentOptions instance parentHostname)].
Proof.
  intros HT HP HL. unfold passEvents.
  rewrite (Reconcile_list_error comp ctx instance parentHostname err HT HP HL).
  split; [reflexivity|]. destruct ctx. apply drop_app_length.
Qed.

(** X2. When the template cannot be rendered, the pass returns the error of
    the rendering as it is, with no requeue request, after the list call
    and the rendering: no job is looked up, created or deleted, and the
    instance and the store are left as they were. *)
Theorem Reconcile_template_failure (comp : copierComponent)
    (ctx : ComponentContext) (instance : instancev1beta1.OdooInstance)
    (parentHostname : string) (parent : instancev1beta1.OdooInstance)
    (err : error) :
  Top ctx = runtime.OdooInstance instance ->
  instancev1beta1.ParentHostname (instancev1beta1.Spec instance)
    = Some parentHostname ->
  parentsFound ctx instance parentHostname = inl [parent] ->
  templates ctx (templatePath comp) (extraFor parent) = inr err ->
  Reconcile comp ctx
    = Done (reconcile.zero, Some err)
        (with_trace
           (trace ctx ++ [EvList (parentOptions instance parentHostname);
                          EvGetTemplate (templatePath comp) (extraFor parent)])
           ctx).
Proof.
  intros HT HP HL HR. destruct ctx as [top sch tpl cl f tr]. run. subst top.
  rewrite HP, HL. cbv [length Nat.ltb Nat.leb]. rewrite index_head. run.
  rewrite HR. flat. reflexivity.
Qed.

(** X3. When the template renders an object that is not a job, the pass
    panics on the type assertion, after the list call and the rendering
    and before any lookup, write or change of the store. *)
Theorem Reconcile_template_not_a_job (comp : copierComponent)
    (ctx : ComponentContext) (instance : instancev1beta1.OdooInstance)
    (parentHostname : string) (parent : instancev1beta1.OdooInstance)
    (obj : runtime.Object) :
  Top ctx = runtime.OdooInstance instance ->
  instancev1beta1.ParentHostname (instancev1beta1.Spec instance)
    = Some parentHostname ->
  parentsFound ctx instance parentHostname = inl [parent] ->
  templates ctx (templatePath comp) (extraFor parent) = inl obj ->
  (forall job, obj <> runtime.Job job) ->
  exists msg,
    Reconcile comp ctx
    = Panic msg
        (with_trace
           (trace ctx ++ [EvList (parentOptions instance parentHostname);
                          EvGetTemplate (templatePath comp) (extraFor parent)])
           ctx).
Proof.
  intros HT HP HL HR Hobj. destruct ctx as [top sch tpl cl f tr]. run.
  subst top. rewrite HP, HL. cbv [length Nat.ltb Nat.leb].
  rewrite index_head. run. rewrite HR.
  destruct obj as [i|j|k]; [|exfalso; exact (Hobj j eq_refl)|];
    flat; eexists; reflexivity.
Qed.

(** X4. When the job lookup fails with an error that is not not-found, the
    pass returns that error as it is, with no requeue request: no status
    condition is written, no create or delete call is issued, and the
    instance and the store are left as they were. *)
Theorem Reconcile_lookup_failure (comp : copierComponent)
    (ctx : ComponentContext) (instance : instancev1beta1.OdooInstance)
    (parentHostname : string) (parent : instancev1beta1.OdooInstance)
    (job : batchv1.Job) (err : error) :
  reachesLookup comp ctx instance parentHostname parent job ->
  jobFound ctx job = inr err ->
  errors.IsNotFound err = false ->
  Reconcile comp ctx
    = Done (reconcile.zero, Some err)
        (with_trace
           (trace ctx ++ lookupEvents comp instance parentHostname parent job)
           ctx)
  /\ passEvents comp ctx = lookupEvents comp instance parentHostname parent job.
Proof.
  intros Hreach HG HN. unfold passEvents.
  rewrite (Reconcile_lookup_error _ _ _ _ _ _ _ Hreach HG HN).
  split; [reflexivity|]. destruct ctx. apply drop_app_length.
Qed.

(** X5. When the lookup reports not-found and the owner reference cannot be
    set, the pass returns the error of setting it, with no requeue request
    and without a create call; the store is left as it was, but "Created"
    is marked as initiated on the instance all the same. *)
Theorem Reconcile_owner_reference_failure (comp : copierComponent)
    (ctx : ComponentContext) (instance : instancev1beta1.OdooInstance)
    (parentHostname : string) (parent : instancev1beta1.OdooInstance)
    (job : batchv1.Job) (err err' : error) :
  reachesLookup comp ctx instance parentHostname parent job ->
  jobFound ctx job = inr err ->
  errors.IsNotFound err = true ->
  controllerutil.SetControllerReference instance job (Scheme ctx) = inr err' ->
  let marked :=
    instancev1beta1.SetStatusConditionCopyJobCreationCreated instance in
  let evs := (lookupEvents comp instance parentHostname parent job
              ++ [EvGlog INFO (msgCreating instance job);
                  EvSetStatusCondition instancev1beta1.CopyJobCreationCreated])%list in
  Reconcile comp ctx
    = Done (reconcile.zero, Some err') (after ctx evs marked (cluster ctx))
  /\ count is_create evs = 0%nat
  /\ instancev1beta1.GetStatusCondition
       instancev1beta1.OdooInstanceStatusConditionTypeCreated marked
     = Some instancev1beta1.CopyJobCreationCreated.
Proof.
  intros Hreach HG HN HS marked evs.
  rewrite (Reconcile_job_not_found _ _ _ _ _ _ _ Hreach HG HN). cbv zeta.
  rewrite HS. split; [reflexivity|]. split; [reflexivity|].
  apply (GetStatusCondition_Set instancev1beta1.CopyJobCreationCreated).
Qed.

(** X6. When the lookup finds a job that has neither succeeded nor failed
    (both counters are at most zero), the pass does nothing: it returns no
    error and no requeue request, the trace holds the three lookup events
    only, and the instance and the store are left as they were. *)
Theorem Reconcile_job_running (comp : copierComponent) (ctx : ComponentContext)
    (instance : instancev1beta1.OdooInstance) (parentHostname : string)
    (parent : instancev1beta1.OdooInstance) (job existing : batchv1.Job) :
  reachesLookup comp ctx instance parentHostname parent job ->
  jobFound ctx job = inl existing ->
  (batchv1.Succeeded (batchv1.Status existing) <= 0)%Z ->
  (batchv1.Failed (batchv1.Status existing) <= 0)%Z ->
  Reconcile comp ctx
    = Done (reconcile.zero, None)
        (with_trace
           (trace ctx ++ lookupEvents comp instance parentHostname parent job)
           ctx).
Proof.
  intros Hreach HG Hs Hf.
  rewrite (Reconcile_job_found _ _ _ _ _ _ _ Hreach HG). cbv zeta.
  unfold failedEvents.
  apply Z.ltb_ge in Hs, Hf. rewrite Hs, Hf.
  destruct ctx. unfold lookupEvents. run. reflexivity.
Qed.

(** ** Every pass *)

(** Case analysis on every path of [Reconcile], the events of the pass
    computed on each. *)
Ltac paths ctx :=
  cbv [passEvents result_of] in *;
  destruct ctx as [top sch tpl cl f tr]; run;
  let n := fresh "n" in
  let Hn := fresh "Hn" in
  remember (length tr) as n eqn:Hn;
  destruct top as [instance|j|k];
  [destruct (instancev1beta1.ParentHostname (instancev1beta1.Spec instance))
     as [h|] eqn:HP;
   [destruct (Client.listAnswer f cl _) as [[|p [|q Items]]|err] eqn:HL;
    cbv [length Nat.ltb Nat.leb]; try rewrite index_head; run; branches | ]
  | | ];
  flat;
  repeat match goal with Hn : ?n = length _ |- _ => subst n end;
  rewrite ?drop_app_length, ?drop_all.

Ltac counts :=
  cbv [count List.filter is_list is_template is_get is_create is_delete
       is_status_write length app] in *.

Ltac pick := repeat (first [left; reflexivity | right]).

(** X7. A pass issues at most one list call, renders at most one template,
    looks up at most one job, issues at most one create or delete call
    (never both) and writes the status conditions at most once. *)
Theorem Reconcile_calls_bounded (comp : copierComponent)
    (ctx : ComponentContext) :
  let evs := passEvents comp ctx in
  (count is_list evs <= 1)%nat
  /\ (count is_template evs <= 1)%nat
  /\ (count is_get evs <= 1)%nat
  /\ (count is_create evs + count is_delete evs <= 1)%nat
  /\ (count is_status_write evs <= 1)%nat.
Proof.
  intros evs. subst evs. paths ctx.
  all: repeat split; counts; lia.
Qed.

(** X8. A pass that returns never sets a requeue delay, requests a requeue
    only together with an error, and reports no error only after it has
    looked the job up. *)
Theorem Reconcile_requeue_carries_error (comp : copierComponent)
    (ctx : ComponentContext) (r : reconcile.Result * option error)
    (ctx' : ComponentContext) :
  Reconcile comp ctx = Done r ctx' ->
  reconcile.RequeueAfter (fst r) = 0%Z
  /\ (reconcile.Requeue (fst r) = true -> snd r <> None)
  /\ (snd r = None -> count is_get (passEvents comp ctx) = 1%nat).
Proof.
  revert r ctx'. paths ctx.
  all: intros r ctx' Hrun; inversion Hrun; subst; clear Hrun.
  all: repeat split; try discriminate; counts; reflexivity.
Qed.

(** X9. A pass deletes nothing but a job that has succeeded: every delete
    call of a pass is for the job its lookup found, that job has a positive
    success count, and the call asks for background propagation. *)
Theorem Reconcile_deletes_only_succeeded (comp : copierComponent)
    (ctx : ComponentContext) (j : batchv1.Job)
    (policy : metav1.DeletionPropagation) :
  In (EvDelete j policy) (passEvents comp ctx) ->
  policy = metav1.DeletePropagationBackground
  /\ (0 < batchv1.Succeeded (batchv1.Status j))%Z
  /\ exists job,
       jobFound ctx job = inl j /\ In (EvGet (jobName job)) (passEvents comp ctx).
Proof.
  revert j policy. paths ctx.
  all: intros victim policy Hin; cbn [In] in Hin;
    repeat destruct Hin as [Hin|Hin]; try discriminate; try contradiction.
  all: inversion Hin; subst; clear Hin.
  all: repeat match goal with
         | H : (0 <? _)%Z = true |- _ => apply Z.ltb_lt in H
         end.
  all: split; [reflexivity|]; split; [assumption|].
  all: eexists; split; [eassumption|]; cbn [In]; pick.
Qed.

(** X10. A pass creates a job only when its lookup of that job reported
    not-found: every create call of a pass is for the rendered job with the
    owner reference set, under the name that was looked up, and it is the
    last event of the pass, right after the write of "Created" as
    initiated. *)
Theorem Reconcile_creates_only_when_absent (comp : copierComponent)
    (ctx : ComponentContext) (j : batchv1.Job) :
  In (EvCreate j) (passEvents comp ctx) ->
  exists instance job err l,
    Top ctx = runtime.OdooInstance instance
    /\ jobFound ctx job = inr err
    /\ errors.IsNotFound err = true
    /\ controllerutil.SetControllerReference instance job (Scheme ctx) = inl j
    /\ job_key j = job_key job
    /\ passEvents comp ctx
       = (l ++ [EvSetStatusCondition instancev1beta1.CopyJobCreationCreated;
                EvCreate j])%list.
Proof.
  revert j. paths ctx.
  all: intros made Hin; cbn [In] in Hin;
    repeat destruct Hin as [Hin|Hin]; try discriminate; try contradiction.
  all: inversion Hin; subst; clear Hin.
  all: match goal with
       | H : controllerutil.SetControllerReference _ _ _ = inl _ |- _ =>
           pose proof (SetControllerReference_owned _ _ _ _ H) as (_ & Hkey & _)
       end.
  all: eexists instance, _, _, [_; _; _; _].
  all: split; [reflexivity|]; split; [eassumption|]; split; [assumption|].
  all: split; [eassumption|]; split; [exact Hkey | reflexivity].
Qed.

(** X11. What a pass leaves alone: the scheme, the templates, the faults
    and the stored instances are never changed; the instance under
    reconciliation is left as it was or written by one of the two status
    condition methods; the store is left as it was, or gains the job of
    the create call, or loses the job of the delete call; and the trace
    is only extended. *)
Theorem Reconcile_frame (comp : copierComponent) (ctx : ComponentContext) :
  let ctx' := context_of (Reconcile comp ctx) in
  let evs := passEvents comp ctx in
  Scheme ctx' = Scheme ctx
  /\ templates ctx' = templates ctx
  /\ faults ctx' = faults ctx
  /\ instances (cluster ctx') = instances (cluster ctx)
  /\ trace ctx' = (trace ctx ++ evs)%list
  /\ (Top ctx' = Top ctx
      \/ exists instance,
           Top ctx = runtime.OdooInstance instance
           /\ (Top ctx' = runtime.OdooInstance
                 (instancev1beta1.SetStatusConditionCopyJobCreationCreated
                    instance)
               \/ Top ctx' = runtime.OdooInstance
                    (instancev1beta1.SetStatusConditionCopyJobSuccessCreated
                       instance)))
  /\ (cluster ctx' = cluster ctx
      \/ (exists j, In (EvCreate j) evs
                    /\ cluster ctx' = Client.stored j (cluster ctx))
      \/ (exists j policy, In (EvDelete j policy) evs
                           /\ cluster ctx' = Client.removed j (cluster ctx))).
Proof.
  intros ctx' evs. subst ctx' evs. paths ctx.
  all: do 4 (split; [reflexivity|]).
  all: split; [rewrite ?app_nil_r; reflexivity|].
  all: split;
    [first [left; reflexivity
           | right; eexists; split;
             [reflexivity | first [left; reflexivity | right; reflexivity]]]|].
  all: first [left; reflexivity
             | right; left; eexists; split; [|reflexivity]; cbn [In]; pick
             | right; right; eexists _, _; split; [|reflexivity];
               cbn [In]; pick].
Qed.

(** X12. A pass that panics has written nothing: the instance and the
    store are as they were, and the pass has issued no job lookup, no
    create call, no delete call and no status write. *)
Theorem Reconcile_panic_is_clean (comp : copierComponent)
    (ctx : ComponentContext) (msg : string) (ctx' : ComponentContext) :
  Reconcile comp ctx = Panic msg ctx' ->
  let evs := passEvents comp ctx in
  Top ctx' = Top ctx
  /\ cluster ctx' = cluster ctx
  /\ count is_get evs = 0%nat
  /\ count is_create evs = 0%nat
  /\ count is_delete evs = 0%nat
  /\ count is_status_write evs = 0%nat.
Proof.
  revert msg ctx'. paths ctx.
  all: intros msg ctx' Hrun; try discriminate.
  all: inversion Hrun; subst; clear Hrun.
  all: repeat split; counts; reflexivity.
Qed.

Lemma Reconcile_status_write_inv comp ctx :
  (1 <= count is_status_write (passEvents comp ctx))%nat ->
  exists instance parentHostname c,
    instancev1beta1.ParentHostname (instancev1beta1.Spec instance)
      = Some parentHostname
    /\ instancev1beta1.Type_ c
       = instancev1beta1.OdooInstanceStatusConditionTypeCreated
    /\ Top (context_of (Reconcile comp ctx))
       = runtime.OdooInstance (instancev1beta1.SetStatusCondition c instance).
Proof.
  paths ctx.
  all: intros Hc; counts; try lia.
  all: eexists instance, h, _; split; [exact HP|]; split;
    [|reflexivity]; reflexivity.
Qed.

(** X13. Once a pass has written the "Created" condition, initiated or
    succeeded, [IsReconcilable] answers false on the context the pass
    left: with the eligibility check in front, [Reconcile] is not entered
    again for that instance. *)
Theorem IsReconcilable_false_after_write (comp : copierComponent)
    (ctx : ComponentContext) :
  (1 <= count is_status_write (passEvents comp ctx))%nat ->
  let ctx' := context_of (Reconcile comp ctx) in
  IsReconcilable comp ctx' = Done false ctx'.
Proof.
  intros Hc ctx'.
  destruct (Reconcile_status_write_inv comp ctx Hc)
    as (instance & h & c & HP & Hc' & HT).
  fold ctx' in HT. clearbody ctx'. clear Hc.
  destruct ctx' as [top sch tpl cl f tr]. run. subst top.
  change (instancev1beta1.Spec (instancev1beta1.SetStatusCondition c instance))
    with (instancev1beta1.Spec instance).
  rewrite HP, <- Hc', GetStatusCondition_Set. reflexivity.
Qed.

(** X14. [IsReconcilable] never changes the context, and it panics exactly
    when the object under reconciliation is not an instance. *)
Theorem IsReconcilable_pure (comp : copierComponent) (ctx : ComponentContext) :
  context_of (IsReconcilable comp ctx) = ctx
  /\ ((forall i, Top ctx <> runtime.OdooInstance i) ->
      exists msg, IsReconcilable comp ctx = Panic msg ctx)
  /\ (result_of (IsReconcilable comp ctx) = None ->
      forall i, Top ctx <> runtime.OdooInstance i).
Proof.
  destruct ctx as [top sch tpl cl f tr]. cbv [result_of]. run.
  destruct top as [i|j|k].
  - destruct (instancev1beta1.ParentHostname (instancev1beta1.Spec i));
      [destruct (instancev1beta1.GetStatusCondition _ i)|];
      (split; [reflexivity|]); (split; [|discriminate]);
      intros H; exfalso; exact (H i eq_refl).
  - split; [reflexivity|]. split; [eexists; reflexivity | discriminate].
  - split; [reflexivity|]. split; [eexists; reflexivity | discriminate].
Qed.

(** ** Replaying a pass *)

(** X15. [Reconcile] on its own does not stop at success.  After a pass
    that found the job succeeded and deleted it, a second pass on the
    context the first one left finds no job, so it creates the job again
    and writes "Created" back to initiated. *)
Theorem Reconcile_recreates_after_success (comp : copierComponent)
    (ctx : ComponentContext) (instance : instancev1beta1.OdooInstance)
    (parentHostname : string) (parent : instancev1beta1.OdooInstance)
    (job existing owned : batchv1.Job) :
  reachesLookup comp ctx instance parentHostname parent job ->
  jobFound ctx job = inl existing ->
  job_key existing = job_key job ->
  (0 < batchv1.Succeeded (batchv1.Status existing))%Z ->
  Client.deleteAnswer (faults ctx) (cluster ctx) existing = None ->
  controllerutil.SetControllerReference instance job (Scheme ctx) = inl owned ->
  faults ctx VerbCreate = None ->
  let ctx' := context_of (Reconcile comp ctx) in
  jobs (cluster ctx') !! job_key job = None
  /\ exists ctx'' instance'',
       Reconcile comp ctx' = Done (reconcile.zero, None) ctx''
       /\ In (EvCreate owned) (passEvents comp ctx')
       /\ jobs (cluster ctx'') !! job_key job = Some owned
       /\ Top ctx'' = runtime.OdooInstance instance''
       /\ instancev1beta1.GetStatusCondition
            instancev1beta1.OdooInstanceStatusConditionTypeCreated instance''
          = Some instancev1beta1.CopyJobCreationCreated.
Proof.
  intros Hreach HG Hkey Hs Hdel HS Hcreate ctx'. subst ctx'.
  pose proof (SetControllerReference_owned _ _ _ _ HS) as (_ & Hown & _).
  rewrite (Reconcile_job_found _ _ _ _ _ _ _ Hreach HG). cbv zeta.
  apply Z.ltb_lt in Hs. rewrite Hs, Hdel. cbv [context_of].
  set (marked := instancev1beta1.SetStatusConditionCopyJobSuccessCreated instance).
  set (evs := (_ ++ _ ++ failedEvents _ _)%list).
  destruct Hreach as (HT & HP & HL & HR).
  assert (Hgone : jobs (cluster (after ctx evs marked
                                   (Client.removed existing (cluster ctx))))
                  !! job_key job = None).
  { destruct ctx. unfold after, Client.removed. run. cbv [jobs].
    rewrite Hkey. apply lookup_delete_eq. }
  split; [exact Hgone|].
  assert (Hget : faults ctx VerbGet = None).
  { unfold jobFound, Client.getAnswer in HG.
    destruct (faults ctx VerbGet); [discriminate | reflexivity]. }
  set (ctx1 := after ctx evs marked (Client.removed existing (cluster ctx)))
    in *.
  assert (Hreach1 : reachesLookup comp ctx1 marked parentHostname parent job).
  { subst ctx1. destruct ctx. repeat split; assumption. }
  assert (HG1 : jobFound ctx1 job
                = inr (errors.NewNotFound (metav1.Name (batchv1.ObjectMeta job)))).
  { unfold jobFound, Client.getAnswer.
    replace (faults ctx1) with (faults ctx) by (subst ctx1; destruct ctx; reflexivity).
    rewrite Hget.
    change (name_key (jobName job)) with (job_key job). rewrite Hgone.
    reflexivity. }
  assert (HS1 : controllerutil.SetControllerReference marked job (Scheme ctx1)
                = inl owned).
  { subst ctx1. destruct ctx. exact HS. }
  assert (HC1 : Client.createAnswer (faults ctx1) (cluster ctx1) owned = None).
  { unfold Client.createAnswer.
    replace (faults ctx1) with (faults ctx) by (subst ctx1; destruct ctx; reflexivity).
    rewrite Hcreate, Hown, Hgone. reflexivity. }
  unfold passEvents.
  rewrite (Reconcile_job_not_found _ _ _ _ _ _ _ Hreach1 HG1 eq_refl).
  cbv zeta. rewrite HS1, HC1. eexists _, _.
  split; [reflexivity|]. split.
  { destruct ctx1. unfold after. cbv [context_of trace with_trace with_Top
                                       with_cluster].
    rewrite drop_app_length. apply in_or_app. right. left. reflexivity. }
  split.
  { destruct ctx1. unfold after, Client.stored. run. cbv [jobs].
    rewrite Hown. apply lookup_insert_eq. }
  split; [destruct ctx1; reflexivity|].
  apply (GetStatusCondition_Set instancev1beta1.CopyJobCreationCreated).
Qed.

(** ** The data of the template *)



(** ** The status conditions are not read *)

(** X17. [Reconcile] never reads the status conditions of the instance:
    with any other conditions on the instance under reconciliation the
    pass returns the same result or panics alike, adds the same events
    and leaves the same store. *)
Theorem Reconcile_ignores_conditions (comp : copierComponent)
    (ctx : ComponentContext) (instance : instancev1beta1.OdooInstance)
    (conds : list instancev1beta1.OdooInstanceStatusCondition) :
  Top ctx = runtime.OdooInstance instance ->
  let ctx2 :=
    with_Top (runtime.OdooInstance (withConditions conds instance)) ctx in
  result_of (Reconcile comp ctx2) = result_of (Reconcile comp ctx)
  /\ passEvents comp ctx2 = passEvents comp ctx
  /\ cluster (context_of (Reconcile comp ctx2))
     = cluster (context_of (Reconcile comp ctx)).
Proof.
  intros HT ctx2. subst ctx2.
  destruct ctx as [top sch tpl cl f tr]. destruct instance as [m sp st].
  cbv [passEvents result_of withConditions]. run. subst top.
  cbv [instancev1beta1.ObjectMeta instancev1beta1.Spec
       controllerutil.SetControllerReference
       msgNoParent msgCreating msgSucceeded msgDeleting msgFailed logPrefix].
  remember (length tr) as n eqn:Hn.
  destruct (instancev1beta1.ParentHostname sp) as [h|];
    [|repeat split; reflexivity].
  destruct (Client.listAnswer f cl _) as [[|p [|q Items]]|err];
    cbv [length Nat.ltb Nat.leb]; try rewrite index_head; run; branches;
    repeat split; reflexivity.
Qed.

(** ** More passes of the scenario, pass by pass *)

Lemma reaches_forbidden :
  reachesLookup Scenario.comp Cases.getForbidden Scenario.child "root-1"
    Scenario.root (Scenario.copierJob [] 0 0).
Proof. repeat split; vm_compute; reflexivity. Qed.

Lemma reaches_preowned :
  reachesLookup Scenario.comp Scenario.preowned Scenario.child "root-1"
    Scenario.root (Scenario.copierJob [Scenario.foreignRef] 0 0).
Proof. repeat split; vm_compute; reflexivity. Qed.

Lemma Reconcile_list_failure_witness :
  parentsFound Cases.listTimeout Scenario.child "root-1"
  = inr (fault_error FaultTimeout)
  /\ passEvents Scenario.comp Cases.listTimeout
     = [EvList (parentOptions Scenario.child "root-1")].
Proof.
  split; [vm_compute; reflexivity|].
  apply (Reconcile_list_failure Scenario.comp Cases.listTimeout Scenario.child
           "root-1" (fault_error FaultTimeout));
    [reflexivity | reflexivity | vm_compute; reflexivity].
Defined.

Lemma Reconcile_template_failure_witness :
  templates Scenario.fresh (templatePath Cases.lost) (extraFor Scenario.root)
  = inr (errorString "template not found: copier/missing.yml.tpl")
  /\ result_of (Reconcile Cases.lost Scenario.fresh)
     = Some (reconcile.zero,
             Some (errorString "template not found: copier/missing.yml.tpl")).
Proof.
  split; [vm_compute; reflexivity|].
  rewrite (Reconcile_template_failure Cases.lost Scenario.fresh Scenario.child
             "root-1" Scenario.root
             (errorString "template not found: copier/missing.yml.tpl"));
    [reflexivity | reflexivity | reflexivity | vm_compute; reflexivity
     | vm_compute; reflexivity].
Defined.

Lemma Reconcile_template_not_a_job_witness :
  templates Cases.misrendered (templatePath Scenario.comp)
    (extraFor Scenario.root) = inl (runtime.Other "ConfigMap")
  /\ exists msg ctx',
       Reconcile Scenario.comp Cases.misrendered = Panic msg ctx'
       /\ cluster ctx' = cluster Cases.misrendered.
Proof.
  split; [reflexivity|].
  destruct (Reconcile_template_not_a_job Scenario.comp Cases.misrendered
              Scenario.child "root-1" Scenario.root (runtime.Other "ConfigMap"))
    as [msg Hrun];
    [reflexivity | reflexivity | vm_compute; reflexivity | reflexivity
     | discriminate |].
  exists msg. eexists. split; [exact Hrun | reflexivity].
Defined.

Lemma Reconcile_lookup_failure_witness :
  jobFound Cases.getForbidden (Scenario.copierJob [] 0 0)
  = inr (fault_error FaultForbidden)
  /\ result_of (Reconcile Scenario.comp Cases.getForbidden)
     = Some (reconcile.zero, Some (fault_error FaultForbidden)).
Proof.
  split; [vm_compute; reflexivity|].
  destruct (Reconcile_lookup_failure Scenario.comp Cases.getForbidden
              Scenario.child "root-1" Scenario.root (Scenario.copierJob [] 0 0)
              (fault_error FaultForbidden)) as [Hrun _];
    [exact reaches_forbidden | vm_compute; reflexivity | reflexivity |].
  rewrite Hrun. reflexivity.
Defined.

Lemma Reconcile_owner_reference_failure_witness :
  (exists err',
     controllerutil.SetControllerReference Scenario.child
       (Scenario.copierJob [Scenario.foreignRef] 0 0) (Scheme Scenario.preowned)
     = inr err')
  /\ exists err' ctx',
       Reconcile Scenario.comp Scenario.preowned
       = Done (reconcile.zero, Some err') ctx'
       /\ cluster ctx' = cluster Scenario.preowned.
Proof.
  split; [eexists; vm_compute; reflexivity|].
  destruct (Reconcile_owner_reference_failure Scenario.comp Scenario.preowned
              Scenario.child "root-1" Scenario.root
              (Scenario.copierJob [Scenario.foreignRef] 0 0)
              (errors.NewNotFound "copier-child-1")
              (errorString
                 "Object copier-child-1 is already owned by another CronJob controller nightly"))
    as [Hrun _];
    [exact reaches_preowned | vm_compute; reflexivity | reflexivity
     | vm_compute; reflexivity |].
  eexists _, _. split; [exact Hrun | reflexivity].
Defined.

Lemma Reconcile_job_running_witness :
  jobFound (Scenario.running 0 0) (Scenario.copierJob [] 0 0)
  = inl (Scenario.copierJob [] 0 0)
  /\ result_of (Reconcile Scenario.comp (Scenario.running 0 0))
     = Some (reconcile.zero, None).
Proof.
  split; [vm_compute; reflexivity|].
  rewrite (Reconcile_job_running Scenario.comp (Scenario.running 0 0)
             Scenario.child "root-1" Scenario.root (Scenario.copierJob [] 0 0)
             (Scenario.copierJob [] 0 0));
    [reflexivity | exact (reaches_running 0 0) | vm_compute; reflexivity
     | simpl; lia | simpl; lia].
Defined.

Lemma Reconcile_requeue_carries_error_witness :
  exists ctx',
    Reconcile Scenario.comp Scenario.orphan
    = Done (reconcile.requeue, Some ParentNotFound) ctx'
    /\ Some ParentNotFound <> None.
Proof.
  eexists. split; [vm_compute; reflexivity|].
  refine (proj1 (proj2 (Reconcile_requeue_carries_error Scenario.comp
                          Scenario.orphan (reconcile.requeue, Some ParentNotFound)
                          _ _)) eq_refl).
  vm_compute. reflexivity.
Defined.

Lemma Reconcile_deletes_only_succeeded_witness :
  In (EvDelete (Scenario.copierJob [] 1 0) metav1.DeletePropagationBackground)
     (passEvents Scenario.comp (Scenario.running 1 0))
  /\ (0 < batchv1.Succeeded (batchv1.Status (Scenario.copierJob [] 1 0)))%Z.
Proof.
  assert (Hin : In (EvDelete (Scenario.copierJob [] 1 0)
                      metav1.DeletePropagationBackground)
                   (passEvents Scenario.comp (Scenario.running 1 0))).
  { vm_compute. do 6 right. left. reflexivity. }
  split; [exact Hin|].
  exact (proj1 (proj2 (Reconcile_deletes_only_succeeded Scenario.comp
                         (Scenario.running 1 0) _ _ Hin))).
Defined.

Lemma Reconcile_creates_only_when_absent_witness :
  In (EvCreate Scenario.ownedJob) (passEvents Scenario.comp Scenario.fresh)
  /\ exists instance job err l,
       Top Scenario.fresh = runtime.OdooInstance instance
       /\ jobFound Scenario.fresh job = inr err
       /\ errors.IsNotFound err = true
       /\ controllerutil.SetControllerReference instance job
            (Scheme Scenario.fresh) = inl Scenario.ownedJob
       /\ job_key Scenario.ownedJob = job_key job
       /\ passEvents Scenario.comp Scenario.fresh
          = (l ++ [EvSetStatusCondition instancev1beta1.CopyJobCreationCreated;
                   EvCreate Scenario.ownedJob])%list.
Proof.
  assert (Hin : In (EvCreate Scenario.ownedJob)
                   (passEvents Scenario.comp Scenario.fresh)).
  { vm_compute. do 5 right. left. reflexivity. }
  split; [exact Hin|].
  exact (Reconcile_creates_only_when_absent Scenario.comp Scenario.fresh
           Scenario.ownedJob Hin).
Defined.

Lemma Reconcile_panic_is_clean_witness :
  exists msg,
    Reconcile Scenario.comp Scenario.rooted = Panic msg Scenario.rooted
    /\ count is_get (passEvents Scenario.comp Scenario.rooted) = 0%nat.
Proof.
  eexists. split; [vm_compute; reflexivity|].
  refine (proj1 (proj2 (proj2 (Reconcile_panic_is_clean Scenario.comp
                                 Scenario.rooted _ Scenario.rooted _)))).
  vm_compute. reflexivity.
Defined.

Lemma IsReconcilable_false_after_write_witness :
  (1 <= count is_status_write (passEvents Scenario.comp Scenario.fresh))%nat
  /\ IsReconcilable Scenario.comp Scenario.created
     = Done false Scenario.created.
Proof.
  assert (Hc : (1 <= count is_status_write
                      (passEvents Scenario.comp Scenario.fresh))%nat).
  { vm_compute. lia. }
  split; [exact Hc|].
  exact (IsReconcilable_false_after_write Scenario.comp Scenario.fresh Hc).
Defined.

Lemma IsReconcilable_pure_witness :
  exists msg, IsReconcilable Scenario.comp Cases.jobOnTop
              = Panic msg Cases.jobOnTop.
Proof.
  apply (proj1 (proj2 (IsReconcilable_pure Scenario.comp Cases.jobOnTop))).
  intros i. discriminate.
Defined.

Lemma Reconcile_recreates_after_success_witness :
  jobFound (Scenario.running 1 0) (Scenario.copierJob [] 0 0)
  = inl (Scenario.copierJob [] 1 0)
  /\ jobs (cluster (context_of (Reconcile Scenario.comp (Scenario.running 1 0))))
       !! job_key (Scenario.copierJob [] 0 0) = None
  /\ exists ctx'' instance'',
       Reconcile Scenario.comp
         (context_of (Reconcile Scenario.comp (Scenario.running 1 0)))
       = Done (reconcile.zero, None) ctx''
       /\ In (EvCreate Scenario.ownedJob)
             (passEvents Scenario.comp
                (context_of (Reconcile Scenario.comp (Scenario.running 1 0))))
       /\ jobs (cluster ctx'') !! job_key (Scenario.copierJob [] 0 0)
          = Some Scenario.ownedJob
       /\ Top ctx'' = runtime.OdooInstance instance''
       /\ instancev1beta1.GetStatusCondition
            instancev1beta1.OdooInstanceStatusConditionTypeCreated instance''
          = Some instancev1beta1.CopyJobCreationCreated.
Proof.
  split; [vm_compute; reflexivity|].
  apply (Reconcile_recreates_after_success Scenario.comp (Scenario.running 1 0)
           Scenario.child "root-1" Scenario.root (Scenario.copierJob [] 0 0)
           (Scenario.copierJob [] 1 0) Scenario.ownedJob);
    [exact (reaches_running 1 0) | vm_compute; reflexivity | reflexivity
     | simpl; lia | vm_compute; reflexivity | vm_compute; reflexivity
     | reflexivity].
Defined.


Lemma Reconcile_ignores_conditions_witness :
  Top Scenario.fresh = runtime.OdooInstance Scenario.child
  /\ passEvents Scenario.comp
       (with_Top (runtime.OdooInstance
                    (withConditions [instancev1beta1.CopyJobSuccessCreated]
                       Scenario.child)) Scenario.fresh)
     = passEvents Scenario.comp Scenario.fresh.
Proof.
  split; [reflexivity|].
  exact (proj1 (proj2 (Reconcile_ignores_conditions Scenario.comp Scenario.fresh
                         Scenario.child [instancev1beta1.CopyJobSuccessCreated]
                         eq_refl))).
Defined.
